(** * Hotel_Booking_System.py: the reservation engine

    A shallow embedding of the business logic of [Hotel_Booking_System.py]
    (date-range test, availability, booking creation, payment recording,
    cancellation and the staff status override) and of the window callbacks
    that drive it, followed by the properties proved about them.

    The SQLite file is modelled as a record of tables.  A table with an
    [INTEGER PRIMARY KEY AUTOINCREMENT] is a finite map from the key to the
    remaining columns; the payment ledger, which is only ever appended to, is
    a list.  Every function that opens a connection takes the store as an
    argument and, when it writes, returns the new store.  The rows of a query
    without ORDER BY come in the order in which the map lists them; the
    properties below speak of which rows a query yields, not of their
    order. *)

From Stdlib Require Import ZArith QArith.
From stdpp Require Import base decidable option list fin_maps gmap strings.

Local Open Scope string_scope.
Local Open Scope Z_scope.

(** ** Data model *)

(** [datetime.date] values.  Dates are only ever compared, subtracted and
    stored; a date is represented by its proleptic Gregorian ordinal
    ([date.toordinal]), on which [<=] is the comparison of [date]. The columns
    [check_in] and [check_out] hold [isoformat()] text that is parsed back
    with [strptime(.., "%Y-%m-%d")]; the table holds the date itself. *)
Definition date := Z.

(** The ordinal of a calendar day, as [date(y, m, d).toordinal()] gives it;
    used to write calendar dates in the examples. *)
Definition is_leap (y : Z) : bool :=
  (y mod 4 =? 0) && (negb (y mod 100 =? 0) || (y mod 400 =? 0)).

Definition days_before_year (y : Z) : Z :=
  let y' := y - 1 in y' * 365 + y' / 4 - y' / 100 + y' / 400.

Definition days_before_month (y m : Z) : Z :=
  nth (Z.to_nat m) [0; 0; 31; 59; 90; 120; 151; 181; 212; 243; 273; 304; 334] 0
  + (if (2 <? m) && is_leap y then 1 else 0).

Definition ymd (y m d : Z) : date :=
  days_before_year y + days_before_month y m + d.

(** [Bookings.status]: the four texts the program writes and offers. *)
Inductive BookingStatus := Pending | Confirmed | Completed | Cancelled.

(** [Rooms.status]: the three texts of the room editor; the column defaults
    to ['Available']. *)
Inductive RoomStatus := Available | Booked | Maintenance.

Global Instance BookingStatus_eq_dec : EqDecision BookingStatus.
Proof. solve_decision. Defined.

Global Instance RoomStatus_eq_dec : EqDecision RoomStatus.
Proof. solve_decision. Defined.

(** A row of [Rooms], without its key [room_id].  A REAL column holds a
    rational number; the products and sums that the program forms of such
    numbers in floating point ([total_amount] of [book_selected], [total] of
    [pay_pending], [SUM(amount)]) are formed exactly here, so they stand for
    the program's values up to rounding, and no property below rests on their
    value. *)
Record Room := mkRoom {
  room_number : string;
  room_type : string;
  price_per_night : Q;
  r_status : RoomStatus;
  description : string
}.

(** A row of [Bookings], without its key [booking_id] (and without
    [created_at], which the engine never reads). *)
Record Booking := mkBooking {
  customer_id : Z;
  room_id : Z;
  check_in : date;
  check_out : date;
  status : BookingStatus
}.

(** A row of [Payments] (without [payment_date]). *)
Record Payment := mkPayment {
  payment_id : Z;
  p_booking_id : Z;
  amount : Q;
  payment_mode : string
}.

(** The database file.  [bookings_seq] and [payments_seq] are the
    [sqlite_sequence] counters of the two AUTOINCREMENT keys the engine
    allocates: the next key is the counter plus one. *)
Record Db := mkDb {
  Rooms : gmap Z Room;
  Bookings : gmap Z Booking;
  bookings_seq : Z;
  Payments : list Payment;
  payments_seq : Z
}.

Definition with_status (s : BookingStatus) (b : Booking) : Booking :=
  mkBooking (customer_id b) (room_id b) (check_in b) (check_out b) s.

(** [UPDATE Bookings SET status = ? WHERE booking_id = ?] *)
Definition update_booking_status (db : Db) (bid : Z) (s : BookingStatus) : Db :=
  mkDb (Rooms db) (alter (with_status s) bid (Bookings db)) (bookings_seq db)
       (Payments db) (payments_seq db).

(** ** Helpers *)

(** [dates_overlap(a_start, a_end, b_start, b_end)] *)
Definition dates_overlap (a_start a_end b_start b_end : date) : bool :=
  negb ((a_end <=? b_start) || (b_end <=? a_start)).

(** ** Business logic *)

(** [status IN ('Pending', 'Confirmed')] *)
Definition active (s : BookingStatus) : Prop := s = Pending ∨ s = Confirmed.

(** The rows of
    [SELECT * FROM Bookings WHERE room_id = ? AND status IN ('Pending', 'Confirmed')]. *)
Definition active_rows (db : Db) (rid : Z) : list (Z * Booking) :=
  filter (λ kb, room_id kb.2 = rid ∧ active (status kb.2))
         (map_to_list (Bookings db)).

(** The [for r in rows] loop of [check_availability]: [False] at the first
    overlapping row, [True] when the rows are exhausted. *)
Fixpoint scan_rows (check_in' check_out' : date) (rows : list (Z * Booking)) : bool :=
  match rows with
  | [] => true
  | r :: rows' =>
      if dates_overlap check_in' check_out' (check_in r.2) (check_out r.2)
      then false
      else scan_rows check_in' check_out' rows'
  end.

(** [check_availability(room_id, check_in, check_out)] *)
Definition check_availability (db : Db) (rid : Z) (ci co : date) : bool :=
  scan_rows ci co (active_rows db rid).

(** The rows of the [SELECT * FROM Rooms WHERE status != 'Maintenance' ..]
    query of [find_available_rooms]: the type is compared only when
    [room_type] is truthy and differs from ["All"].  [None] is Python's
    [None]. *)
Definition candidate_rooms (db : Db) (room_type' : option string) : list (Z * Room) :=
  match room_type' with
  | Some t =>
      if bool_decide (t ≠ "" ∧ t ≠ "All")
      then filter (λ kr, r_status kr.2 ≠ Maintenance ∧ room_type kr.2 = t)
                  (map_to_list (Rooms db))
      else filter (λ kr, r_status kr.2 ≠ Maintenance) (map_to_list (Rooms db))
  | None => filter (λ kr, r_status kr.2 ≠ Maintenance) (map_to_list (Rooms db))
  end.

(** [find_available_rooms(check_in, check_out, room_type=None)] *)
Definition find_available_rooms (db : Db) (ci co : date) (room_type' : option string)
  : list (Z * Room) :=
  filter (λ kr, check_availability db kr.1 ci co = true) (candidate_rooms db room_type').

(** [create_booking(customer_id, room_id, check_in, check_out)]: the new store
    and [c.lastrowid]. *)
Definition create_booking (db : Db) (cust rid : Z) (ci co : date) : Db * Z :=
  let booking_id := bookings_seq db + 1 in
  (mkDb (Rooms db) (<[booking_id := mkBooking cust rid ci co Pending]> (Bookings db))
        booking_id (Payments db) (payments_seq db),
   booking_id).

(** [record_payment(booking_id, amount, mode)] *)
Definition record_payment (db : Db) (bid : Z) (amount' : Q) (mode : string) : Db :=
  let pid := payments_seq db + 1 in
  update_booking_status
    (mkDb (Rooms db) (Bookings db) (bookings_seq db)
          (Payments db ++ [mkPayment pid bid amount' mode]) pid)
    bid Confirmed.

(** ** Window callbacks

    A callback reads the widgets of its window and the store; the widget
    values it reads are arguments here, and its result is the new store
    together with the dialog it ends in. *)



(** [book_selected] of [show_browse_and_book].  [sel] is the selected row of
    the result list ([None]: nothing selected), [start] and [end'] are
    [tree._checkin] and [tree._checkout].  [total_amount] is the exact
    product, where the program multiplies in floating point. *)
Inductive BookOutcome :=
| SelectRoomError          (* showerror: "Please select a room to book" *)
| RoomNoLongerAvailable    (* showerror: "Room no longer available. Please search again." *)
| ConfirmBooking (booking_id : Z) (room_num : string) (total_nights : Z) (total_amount : Q)
                           (* the "Proceed to payment?" dialog *)
| RoomRowMissing (booking_id : Z).
                           (* [r] is [None] after the committed insert: [r["price_per_night"]] raises *)

Definition book_selected (db : Db) (cust : Z) (sel : option Z) (start end' : date)
  : Db * BookOutcome :=
  match sel with
  | None => (db, SelectRoomError)
  | Some rid =>
      if negb (check_availability db rid start end') then (db, RoomNoLongerAvailable)
      else
        let '(db', booking_id) := create_booking db cust rid start end' in
        let total_nights := end' - start in
        match Rooms db' !! rid with
        | Some r =>
            (db', ConfirmBooking booking_id (room_number r) total_nights
                                 (price_per_night r * inject_Z total_nights)%Q)
        | None => (db', RoomRowMissing booking_id)
        end
  end.

(** [do_pay] of [show_payment(booking_id, amount)]; [mode] is the selected
    radio button, [""] when none is. *)
Inductive PayOutcome :=
| SelectMethodError        (* showerror: "Please select a payment method" *)
| PaymentSuccessful.

Definition do_pay (db : Db) (bid : Z) (amount' : Q) (mode : string) : Db * PayOutcome :=
  if bool_decide (mode = "") then (db, SelectMethodError)
  else (record_payment db bid amount' mode, PaymentSuccessful).

(** The columns of a row of the "My Bookings" list that its callbacks read:
    [values[0]], [values[4]] and [values[5]]. *)
Inductive PaymentShown := ShownPaid | ShownPending.

Record MyBookingRow := mkRow {
  row_bid : Z;
  row_status : BookingStatus;
  row_payment : PaymentShown
}.

(** [pay_pending] of [show_my_bookings]; [total] is the exact product, where
    the program multiplies in floating point. *)
Inductive PayPendingOutcome :=
| PaySelectBookingError    (* showerror: "Please select a booking" *)
| AlreadyPaidInfo          (* showinfo: "This booking is already paid" *)
| CannotPayCancelledInfo   (* showinfo: "Cannot pay for cancelled booking" *)
| PaymentWindow (bid : Z) (total : Q)
| BookingRowMissing.       (* the join has no row: [rr["check_in"]] raises *)

Definition pay_pending (db : Db) (sel : option MyBookingRow) : PayPendingOutcome :=
  match sel with
  | None => PaySelectBookingError
  | Some values =>
      match row_payment values with
      | ShownPaid => AlreadyPaidInfo
      | ShownPending =>
          if bool_decide (row_status values = Cancelled) then CannotPayCancelledInfo
          else
            match Bookings db !! row_bid values with
            | Some b =>
                match Rooms db !! room_id b with
                | Some r =>
                    PaymentWindow (row_bid values)
                      (inject_Z (check_out b - check_in b) * price_per_night r)%Q
                | None => BookingRowMissing
                end
            | None => BookingRowMissing
            end
      end
  end.

(** [cancel_booking] of [show_my_bookings]; [confirm] is the answer to the
    "Are you sure you want to cancel this booking?" dialog. *)
Inductive CancelOutcome :=
| CancelSelectBookingError (* showerror: "Please select a booking" *)
| AlreadyCancelledInfo     (* showinfo: "Booking is already cancelled" *)
| CancelDeclined
| CancelledSuccessfully.   (* showinfo: "Booking cancelled successfully" *)

Definition cancel_booking (db : Db) (sel : option MyBookingRow) (confirm : bool)
  : Db * CancelOutcome :=
  match sel with
  | None => (db, CancelSelectBookingError)
  | Some values =>
      if bool_decide (row_status values = Cancelled) then (db, AlreadyCancelledInfo)
      else if confirm
           then (update_booking_status db (row_bid values) Cancelled, CancelledSuccessfully)
           else (db, CancelDeclined)
  end.

(** [set_status] of [show_view_bookings] with its [update] button: [sel] is
    the booking id of the selected row, [new_status] the selected radio
    button ([None] when none is). *)
Inductive SetStatusOutcome :=
| StatusSelectBookingError (* showerror: "Please select a booking" *)
| SelectStatusError        (* showerror: "Please select a status" *)
| StatusUpdated.           (* showinfo: "Status updated successfully" *)

Definition set_status (db : Db) (sel : option Z) (new_status : option BookingStatus)
  : Db * SetStatusOutcome :=
  match sel with
  | None => (db, StatusSelectBookingError)
  | Some bid =>
      match new_status with
      | None => (db, SelectStatusError)
      | Some s => (update_booking_status db bid s, StatusUpdated)
      end
  end.

(** The store after [create_tables()] and [seed_data()] on a fresh file, as
    far as the engine reads it: the eight sample rooms and no booking. *)
Definition seeded : Db :=
  mkDb (list_to_map
          [ (1, mkRoom "101" "Single" 1500 Available "Cozy single bed with AC and WiFi");
            (2, mkRoom "102" "Double" 2500 Available "Double bed with sea view and balcony");
            (3, mkRoom "103" "Single" 1600 Available "Single bed with garden view");
            (4, mkRoom "201" "Suite" 5000 Available "Luxury suite with living area and kitchen");
            (5, mkRoom "202" "Double" 2600 Available "Double bed with city view and balcony");
            (6, mkRoom "203" "Suite" 4800 Available "Executive suite with workspace");
            (7, mkRoom "301" "Double" 2400 Available "Double bed with pool view");
            (8, mkRoom "302" "Single" 1550 Available "Compact single room with all amenities") ])
       ∅ 0 [] 0.

(** A sequence of booking requests, each one a complete run of
    [book_selected]. *)
Record BookRequest := mkRequest {
  req_customer : Z;
  req_sel : option Z;
  req_start : date;
  req_end : date
}.

Definition book_step (db : Db) (r : BookRequest) : Db :=
  (book_selected db (req_customer r) (req_sel r) (req_start r) (req_end r)).1.

Definition book_all (db : Db) (rs : list BookRequest) : Db := foldl book_step db rs.

(** ** The no-double-booking invariant *)

(** No two distinct active bookings of one room overlap. *)
Definition no_double_booking (db : Db) : Prop :=
  ∀ i j b1 b2,
    i ≠ j → Bookings db !! i = Some b1 → Bookings db !! j = Some b2 →
    room_id b1 = room_id b2 → active (status b1) → active (status b2) →
    dates_overlap (check_in b1) (check_out b1) (check_in b2) (check_out b2) = false.

(** The AUTOINCREMENT counter is at least every booking key in use, as it is
    in a file that only this program writes; the next key is then unused. *)
Definition keys_below_seq (db : Db) : Prop :=
  ∀ k b, Bookings db !! k = Some b → k ≤ bookings_seq db.

(** What it means for a room to pass the optional type argument of
    [find_available_rooms]: no argument, an empty one or ["All"] let every
    type pass. *)
Definition matches_type_filter (room_type' : option string) (r : Room) : Prop :=
  match room_type' with
  | Some t => t = "" ∨ t = "All" ∨ room_type r = t
  | None => True
  end.

(** ** Concrete stores

    Stores reached from the seeded one, used as concrete inputs below:
    customer 7 books room 1 for days 10 to 14, and then cancels. *)
Definition db_booked : Db := (book_selected seeded 7 (Some 1) 10 14).1.

Definition db_cancelled : Db :=
  (cancel_booking db_booked (Some (mkRow 1 Pending ShownPending)) true).1.

(** ** Dashboard *)

(** [SELECT COUNT .. FROM t WHERE ..]: the number of rows of a table whose
    columns satisfy the condition. *)
Definition count_rows {A} (P : A → Prop) `{∀ x, Decision (P x)} (t : gmap Z A) : nat :=
  length (filter (λ kx, P kx.2) (map_to_list t)).

(** [SELECT SUM(amount) FROM Payments], when there is a payment; the sum is
    formed exactly, where SQLite adds doubles. *)
Definition sum_amounts (ps : list Payment) : Q :=
  foldr (λ p acc, amount p + acc)%Q 0%Q ps.

(** The dictionary that [get_dashboard_stats] returns. *)
Record Stats := mkStats {
  total_rooms : nat;
  available_rooms : nat;
  total_bookings : nat;
  pending_bookings : nat;
  confirmed_bookings : nat;
  total_revenue : Q
}.

(** [get_dashboard_stats()]; the sum over no payment is NULL, which like a
    sum of zero is reported as 0. *)
Definition get_dashboard_stats (db : Db) : Stats :=
  mkStats (size (Rooms db))
          (count_rows (λ r, r_status r = Available) (Rooms db))
          (size (Bookings db))
          (count_rows (λ b, status b = Pending) (Bookings db))
          (count_rows (λ b, status b = Confirmed) (Bookings db))
          (match Payments db with
           | [] => 0
           | ps => if Qeq_bool (sum_amounts ps) 0 then 0 else sum_amounts ps
           end).

(** ** The "My Bookings" list *)

(** The payments that the [LEFT JOIN Payments p ON b.booking_id = p.booking_id]
    of [load] pairs with a booking. *)
Definition payments_of (db : Db) (bid : Z) : list Payment :=
  filter (λ p, p_booking_id p = bid) (Payments db).

(** [load] of [show_my_bookings], for the logged-in customer [cust]: the rows
    of the list, with the columns that the callbacks read.  A booking is
    joined with its room, so a booking whose room row is missing is not
    listed; it is listed once per payment, as 'Paid', and once, as 'Pending',
    when it has none.  ([ORDER BY b.created_at DESC] is not modelled.) *)
Definition my_bookings (db : Db) (cust : Z) : list MyBookingRow :=
  kb ← map_to_list (Bookings db);
  if bool_decide (customer_id kb.2 = cust)
  then match Rooms db !! room_id kb.2 with
       | Some _ =>
           match payments_of db kb.1 with
           | [] => [mkRow kb.1 (status kb.2) ShownPending]
           | ps => (λ _, mkRow kb.1 (status kb.2) ShownPaid) <$> ps
           end
       | None => []
       end
  else [].

(** ** Room management *)

(** [delete_room] of [show_manage_rooms]; [sel] is the selected room id and
    [confirm] the answer to "Are you sure you want to delete this room?". *)
Inductive DeleteRoomOutcome :=
| DeleteSelectRoomError    (* showerror: "Please select a room" *)
| DeleteDeclined
| RoomHasBookings          (* showerror: "Cannot delete room with existing bookings." *)
| RoomDeleted.             (* showinfo: "Room deleted successfully" *)

Definition delete_room (db : Db) (sel : option Z) (confirm : bool)
  : Db * DeleteRoomOutcome :=
  match sel with
  | None => (db, DeleteSelectRoomError)
  | Some rid =>
      if negb confirm then (db, DeleteDeclined)
      else if bool_decide (0 < count_rows (λ b, room_id b = rid) (Bookings db))%nat
           then (db, RoomHasBookings)
           else (mkDb (delete rid (Rooms db)) (Bookings db) (bookings_seq db)
                      (Payments db) (payments_seq db),
                 RoomDeleted)
  end.

(** Every booking refers to a room that exists. *)
Definition bookings_have_rooms (db : Db) : Prop :=
  ∀ bid b, Bookings db !! bid = Some b → is_Some (Rooms db !! room_id b).

(** ** Accounts *)

(** A row of [Customers], without its key [customer_id]. *)
Record Customer := mkCustomer {
  c_name : string;
  c_email : string;
  c_phone : string;
  c_password_hash : string
}.

(** A row of [Staff], without its key [staff_id]. *)
Record StaffRow := mkStaff {
  s_name : string;
  s_role : string;
  s_email : string;
  s_phone : string;
  s_password_hash : string
}.

(** The tables of the database file that the reservation engine does not
    read, with their AUTOINCREMENT counters, and the counter of [Rooms]. *)
Record Store := mkStore {
  st_db : Db;
  rooms_seq : Z;
  Customers : gmap Z Customer;
  customers_seq : Z;
  Staff : gmap Z StaffRow;
  staff_seq : Z
}.

(** The file after [create_tables()] alone: every table empty. *)
Definition fresh : Store := mkStore (mkDb ∅ ∅ 0 [] 0) 0 ∅ 0 ∅ 0.

(** [SELECT * FROM Customers WHERE email = ?] with [fetchone()] *)
Definition customer_by_email (st : Store) (email : string) : option (Z * Customer) :=
  head (filter (λ kc, c_email kc.2 = email) (map_to_list (Customers st))).

(** [SELECT * FROM Staff WHERE email = ?] with [fetchone()] *)
Definition staff_by_email (st : Store) (email : string) : option (Z * StaffRow) :=
  head (filter (λ ks, s_email ks.2 = email) (map_to_list (Staff st))).

(** The eight sample rooms of [seed_data]; the status column is written as
    ['Available']. *)
Definition sample_rooms : list Room :=
  [ mkRoom "101" "Single" 1500 Available "Cozy single bed with AC and WiFi";
    mkRoom "102" "Double" 2500 Available "Double bed with sea view and balcony";
    mkRoom "103" "Single" 1600 Available "Single bed with garden view";
    mkRoom "201" "Suite" 5000 Available "Luxury suite with living area and kitchen";
    mkRoom "202" "Double" 2600 Available "Double bed with city view and balcony";
    mkRoom "203" "Suite" 4800 Available "Executive suite with workspace";
    mkRoom "301" "Double" 2400 Available "Double bed with pool view";
    mkRoom "302" "Single" 1550 Available "Compact single room with all amenities" ].

(** One [INSERT INTO Rooms] of the loop of [seed_data]: the table and its
    counter. *)
Definition insert_room (acc : gmap Z Room * Z) (r : Room) : gmap Z Room * Z :=
  (<[acc.2 + 1 := r]> acc.1, acc.2 + 1).

(** Python's truth value of a string.  A text is a [string]: a sequence of
    characters, of which Rocq's [string] has 256; [len] is its length. *)
Definition truthy (s : string) : bool := negb (bool_decide (s = "")).

Section Accounts.
(** [hashlib.sha256(s.encode()).hexdigest()], [str.strip] and [str.lower],
    which the program takes from Python's library. *)
Variable sha256_hexdigest : string → string.
Variable strip : string → string.
Variable lower : string → string.

(** [hash_password(password)] *)
Definition hash_password (password : string) : string := sha256_hexdigest password.

(** [verify_password(password, password_hash)] *)
Definition verify_password (password password_hash : string) : bool :=
  bool_decide (hash_password password = password_hash).

(** [seed_data()] *)
Definition seed_data (st : Store) : Store :=
  let st1 :=
    match staff_by_email st "admin@hotel" with
    | Some _ => st
    | None =>
        let pw := hash_password "admin123" in
        mkStore (st_db st) (rooms_seq st) (Customers st) (customers_seq st)
                (<[staff_seq st + 1 := mkStaff "Admin" "Manager" "admin@hotel" "0000000000" pw]>
                   (Staff st))
                (staff_seq st + 1)
    end in
  if bool_decide (size (Rooms (st_db st1)) = 0%nat)
  then
    let '(rooms, seq) := foldl insert_room (Rooms (st_db st1), rooms_seq st1) sample_rooms in
    mkStore (mkDb rooms (Bookings (st_db st1)) (bookings_seq (st_db st1))
                  (Payments (st_db st1)) (payments_seq (st_db st1)))
            seq (Customers st1) (customers_seq st1) (Staff st1) (staff_seq st1)
  else st1.

(** [do_register] of [show_register]; the arguments are the texts of the
    four entry fields. *)
Inductive RegisterOutcome :=
| FillRequiredFields       (* showerror: "Please fill all required fields" *)
| PasswordTooShort         (* showerror: "Password must be at least 6 characters" *)
| EmailAlreadyRegistered   (* showerror: "Email already registered" *)
| RegistrationSuccessful.  (* showinfo: "Registration successful! Please login." *)

Definition do_register (st : Store) (name_e email_e phone_e password_e : string)
  : Store * RegisterOutcome :=
  let name := strip name_e in
  let email := lower (strip email_e) in
  let phone := strip phone_e in
  let pw := password_e in
  if negb (truthy name && truthy email && truthy pw) then (st, FillRequiredFields)
  else if bool_decide (String.length pw < 6)%nat then (st, PasswordTooShort)
  else match customer_by_email st email with
       | Some _ => (st, EmailAlreadyRegistered)
       | None =>
           (mkStore (st_db st) (rooms_seq st)
                    (<[customers_seq st + 1 := mkCustomer name email phone (hash_password pw)]>
                       (Customers st))
                    (customers_seq st + 1) (Staff st) (staff_seq st),
            RegistrationSuccessful)
       end.

(** [do_login] of [show_login]: on success [self.user] is the customer's
    row, given here with its key. *)
Inductive LoginOutcome :=
| EnterEmailAndPassword    (* showerror: "Please enter email and password" *)
| InvalidEmailOrPassword   (* showerror: "Invalid email or password" *)
| WelcomeBack (cid : Z) (row : Customer).

Definition do_login (st : Store) (email_e password_e : string) : LoginOutcome :=
  let email := lower (strip email_e) in
  let pw := password_e in
  if negb (truthy email && truthy pw) then EnterEmailAndPassword
  else match customer_by_email st email with
       | Some (cid, row) =>
           if verify_password pw (c_password_hash row) then WelcomeBack cid row
           else InvalidEmailOrPassword
       | None => InvalidEmailOrPassword
       end.

(** [do_login] of [show_admin_login]: on success [self.staff] is the staff
    row. *)
Inductive AdminLoginOutcome :=
| InvalidAdminCredentials  (* showerror: "Invalid admin credentials" *)
| WelcomeStaff (sid : Z) (row : StaffRow).

Definition admin_do_login (st : Store) (email_e password_e : string) : AdminLoginOutcome :=
  let email := lower (strip email_e) in
  let pw := password_e in
  match staff_by_email st email with
  | Some (sid, row) =>
      if verify_password pw (s_password_hash row) then WelcomeStaff sid row
      else InvalidAdminCredentials
  | None => InvalidAdminCredentials
  end.
End Accounts.

(** No two customers have the same email: the UNIQUE constraint of the
    column. *)
Definition unique_emails (st : Store) : Prop :=
  ∀ i j c1 c2, Customers st !! i = Some c1 → Customers st !! j = Some c2 →
               c_email c1 = c_email c2 → i = j.

(** ** Booking requests of several sessions

    Several copies of the program can run on one database file.  Every
    function opens its own connection and commits before it returns, so the
    writes of two sessions interleave between the calls of a callback:
    [book_selected] reads with [check_availability] (its [if not
    check_availability ..] line) and writes with [create_booking] two lines
    below, with no transaction around the two. *)

(** Where a run of [book_selected] stands: before its availability check,
    between a passed check and the insert, or ended. *)
Inductive BookPhase := AtCheck | AtInsert | Finished.

Record BookSession := mkSession {
  s_request : BookRequest;
  s_phase : BookPhase
}.

(** The next database call of a session, on the store as the other sessions
    have left it. *)
Definition session_step (db : Db) (s : BookSession) : Db * BookSession :=
  let r := s_request s in
  match req_sel r with
  | None => (db, mkSession r Finished)
  | Some rid =>
      match s_phase s with
      | AtCheck =>
          if negb (check_availability db rid (req_start r) (req_end r))
          then (db, mkSession r Finished)
          else (db, mkSession r AtInsert)
      | AtInsert =>
          ((create_booking db (req_customer r) rid (req_start r) (req_end r)).1,
           mkSession r Finished)
      | Finished => (db, s)
      end
  end.

(** A schedule names, step by step, the session that makes its next call. *)
Definition schedule_step (st : Db * list BookSession) (i : nat) : Db * list BookSession :=
  match st.2 !! i with
  | Some s => let '(db', s') := session_step st.1 s in (db', <[i := s']> st.2)
  | None => st
  end.

Definition run_schedule (db : Db) (sessions : list BookSession) (schedule : list nat)
  : Db * list BookSession :=
  foldl schedule_step (db, sessions) schedule.


(** * Properties *)

(** ** Date-range arithmetic *)

Lemma dates_overlap_true (aS aE bS bE : date) :
  dates_overlap aS aE bS bE = true ↔ bS < aE ∧ aS < bE.
Proof.
  unfold dates_overlap.
  rewrite negb_true_iff, orb_false_iff, !Z.leb_gt. tauto.
Qed.

Lemma dates_overlap_false (aS aE bS bE : date) :
  dates_overlap aS aE bS bE = false ↔ aE ≤ bS ∨ bE ≤ aS.
Proof.
  unfold dates_overlap.
  rewrite negb_false_iff, orb_true_iff, !Z.leb_le. tauto.
Qed.

Lemma dates_overlap_comm (aS aE bS bE : date) :
  dates_overlap aS aE bS bE = dates_overlap bS bE aS aE.
Proof. unfold dates_overlap. by rewrite orb_comm. Qed.

(** C5: [dates_overlap] is the decision of NOT (aEnd <= bStart OR bEnd <=
    aStart) on every four dates; two adjacent half-open intervals (the end of
    one is the start of the other) do not overlap, in either order; two
    intervals that share a day overlap, and two non-degenerate intervals that
    overlap share a day.  Being a function to [bool], it has a value on any
    dates, degenerate ones included. *)
Theorem dates_overlap_half_open (aS aE bS bE : date) :
  dates_overlap aS aE bS bE = bool_decide (¬ (aE ≤ bS ∨ bE ≤ aS)) ∧
  dates_overlap aS aE aE bE = false ∧
  dates_overlap aE bE aS aE = false ∧
  (∀ d, aS ≤ d < aE → bS ≤ d < bE → dates_overlap aS aE bS bE = true) ∧
  (aS < aE → bS < bE → dates_overlap aS aE bS bE = true →
   ∃ d, aS ≤ d < aE ∧ bS ≤ d < bE).
Proof.
  split_and!.
  - destruct (dates_overlap aS aE bS bE) eqn:E; symmetry.
    + apply bool_decide_eq_true. apply dates_overlap_true in E. lia.
    + apply bool_decide_eq_false. apply dates_overlap_false in E. tauto.
  - apply dates_overlap_false. left. lia.
  - apply dates_overlap_false. right. lia.
  - intros d Ha Hb. apply dates_overlap_true. lia.
  - intros Ha Hb [H1 H2]%dates_overlap_true.
    exists (Z.max aS bS). lia.
Qed.

(** The boundary case of the specification, on calendar dates: with
    [2024-06-01, 2024-06-05) taken, [2024-06-05, 2024-06-08) is free and
    [2024-06-04, 2024-06-06) is not. *)
Example dates_overlap_june_2024 :
  dates_overlap (ymd 2024 6 5) (ymd 2024 6 8) (ymd 2024 6 1) (ymd 2024 6 5) = false ∧
  dates_overlap (ymd 2024 6 4) (ymd 2024 6 6) (ymd 2024 6 1) (ymd 2024 6 5) = true.
Proof. split; reflexivity. Qed.

(** C6: [dates_overlap] is symmetric in its two intervals, and an interval
    whose end is strictly after its start overlaps itself. *)
Theorem dates_overlap_symmetric_reflexive (aS aE bS bE : date) :
  dates_overlap aS aE bS bE = dates_overlap bS bE aS aE ∧
  (aS < aE → dates_overlap aS aE aS aE = true).
Proof.
  split; [apply dates_overlap_comm|].
  intros H. apply dates_overlap_true. lia.
Qed.

Lemma dates_overlap_symmetric_reflexive_witness :
  dates_overlap 1 4 3 6 = dates_overlap 3 6 1 4 ∧ dates_overlap 1 4 1 4 = true.
Proof.
  destruct (dates_overlap_symmetric_reflexive 1 4 3 6) as [Hs Hr].
  split; [exact Hs | apply Hr; lia].
Defined.

(** ** Availability *)

Lemma scan_rows_false (ci co : date) (rows : list (Z * Booking)) :
  scan_rows ci co rows = false ↔
  ∃ r, r ∈ rows ∧ dates_overlap ci co (check_in r.2) (check_out r.2) = true.
Proof.
  induction rows as [|r rows IH]; simpl.
  - split; [done|]. intros (r & Hr & _). by apply elem_of_nil in Hr.
  - destruct (dates_overlap ci co (check_in r.2) (check_out r.2)) eqn:E.
    + split; [|done]. intros _. exists r. split; [left|done].
    + rewrite IH. split.
      * intros (r' & Hr' & Ho). exists r'. split; [by right|done].
      * intros (r' & Hr' & Ho). apply elem_of_cons in Hr' as [->|Hr'].
        -- congruence.
        -- by exists r'.
Qed.

Lemma elem_of_active_rows (db : Db) (rid bid : Z) (b : Booking) :
  (bid, b) ∈ active_rows db rid ↔
  Bookings db !! bid = Some b ∧ room_id b = rid ∧ active (status b).
Proof.
  unfold active_rows. rewrite list_elem_of_filter, elem_of_map_to_list. simpl. tauto.
Qed.

Lemma check_availability_false (db : Db) (rid : Z) (ci co : date) :
  check_availability db rid ci co = false ↔
  ∃ bid b, Bookings db !! bid = Some b ∧ room_id b = rid ∧ active (status b) ∧
           dates_overlap ci co (check_in b) (check_out b) = true.
Proof.
  unfold check_availability. rewrite scan_rows_false. split.
  - intros ([bid b] & Hin & Ho).
    apply elem_of_active_rows in Hin as (Hb & Hr & Ha). by exists bid, b.
  - intros (bid & b & Hb & Hr & Ha & Ho). exists (bid, b).
    split; [by apply elem_of_active_rows|done].
Qed.

Lemma check_availability_true (db : Db) (rid : Z) (ci co : date) :
  check_availability db rid ci co = true ↔
  ∀ bid b, Bookings db !! bid = Some b → room_id b = rid → active (status b) →
           dates_overlap ci co (check_in b) (check_out b) = false.
Proof.
  rewrite <-not_false_iff_true, check_availability_false. split.
  - intros Hn bid b Hb Hr Ha.
    destruct (dates_overlap ci co (check_in b) (check_out b)) eqn:E; [|done].
    exfalso. apply Hn. by exists bid, b.
  - intros H (bid & b & Hb & Hr & Ha & Ho). rewrite (H bid b) in Ho; done.
Qed.

(** C7: [check_availability] returns [False] exactly when some booking of the
    room whose status is Pending or Confirmed overlaps the requested interval,
    and [True] exactly when none does; bookings of other rooms and Completed
    or Cancelled bookings play no part. *)
Theorem check_availability_spec (db : Db) (rid : Z) (ci co : date) :
  (check_availability db rid ci co = false ↔
   ∃ bid b, Bookings db !! bid = Some b ∧ room_id b = rid ∧
            (status b = Pending ∨ status b = Confirmed) ∧
            dates_overlap ci co (check_in b) (check_out b) = true) ∧
  (check_availability db rid ci co = true ↔
   ∀ bid b, Bookings db !! bid = Some b → room_id b = rid →
            (status b = Pending ∨ status b = Confirmed) →
            dates_overlap ci co (check_in b) (check_out b) = false).
Proof. split; [apply check_availability_false | apply check_availability_true]. Qed.

(** ** Booking creation *)

Lemma create_booking_bookings (db : Db) (cust rid : Z) (ci co : date) :
  Bookings (create_booking db cust rid ci co).1 =
  <[bookings_seq db + 1 := mkBooking cust rid ci co Pending]> (Bookings db).
Proof. reflexivity. Qed.

(** An insert that follows a successful availability check keeps the
    invariant. *)
Lemma create_booking_after_check (db : Db) (cust rid : Z) (ci co : date) :
  check_availability db rid ci co = true →
  no_double_booking db →
  no_double_booking (create_booking db cust rid ci co).1.
Proof.
  intros Hav Hinv i j b1 b2 Hij H1 H2 Hroom A1 A2.
  rewrite create_booking_bookings in H1, H2.
  apply lookup_insert_Some in H1 as [[<- <-]|[Hi H1]];
    apply lookup_insert_Some in H2 as [[Hj <-]|[Hj H2]]; simpl in *.
  - by destruct Hij.
  - by apply (proj1 (check_availability_true db rid ci co) Hav j b2).
  - rewrite dates_overlap_comm.
    by apply (proj1 (check_availability_true db rid ci co) Hav i b1).
  - by apply (Hinv i j b1 b2).
Qed.

Lemma book_selected_bookings (db : Db) (cust : Z) (sel : option Z) (start end' : date) :
  Bookings (book_selected db cust sel start end').1 =
  match sel with
  | Some rid =>
      if check_availability db rid start end'
      then <[bookings_seq db + 1 := mkBooking cust rid start end' Pending]> (Bookings db)
      else Bookings db
  | None => Bookings db
  end.
Proof.
  unfold book_selected. destruct sel as [rid|]; [|done].
  destruct (check_availability db rid start end'); simpl; [|done].
  by destruct (Rooms db !! rid).
Qed.

Lemma book_selected_no_double_booking (db : Db) (cust : Z) (sel : option Z)
    (start end' : date) :
  no_double_booking db → no_double_booking (book_selected db cust sel start end').1.
Proof.
  intros Hinv.
  assert (Bookings (book_selected db cust sel start end').1 = Bookings db ∨
          ∃ rid, check_availability db rid start end' = true ∧
                 Bookings (book_selected db cust sel start end').1 =
                 Bookings (create_booking db cust rid start end').1) as [E|(rid & Hav & E)].
  { rewrite book_selected_bookings. destruct sel as [rid|]; [|by left].
    destruct (check_availability db rid start end') eqn:Hav; [|by left].
    right. by exists rid. }
  - unfold no_double_booking. rewrite E. exact Hinv.
  - unfold no_double_booking. rewrite E.
    by apply (create_booking_after_check db cust rid start end').
Qed.

Lemma seeded_no_double_booking : no_double_booking seeded.
Proof. intros i j b1 b2 _ H. unfold seeded in H. simpl in H. by rewrite lookup_empty in H. Qed.

Lemma db_booked_no_double_booking : no_double_booking db_booked.
Proof. apply book_selected_no_double_booking, seeded_no_double_booking. Qed.

(** C1 (amended): when no two active (Pending or Confirmed) bookings of one
    room overlap, the same holds after any sequence of booking requests that
    follow one another, each a complete run of [book_selected] (the
    availability check followed by [create_booking]). *)
Theorem book_all_no_double_booking (db : Db) (rs : list BookRequest) :
  no_double_booking db → no_double_booking (book_all db rs).
Proof.
  revert db. induction rs as [|r rs IH]; intros db Hinv; simpl; [done|].
  apply IH. by apply book_selected_no_double_booking.
Qed.

Lemma book_all_no_double_booking_witness :
  no_double_booking
    (book_all seeded
       [ mkRequest 7 (Some 1) (ymd 2024 6 1) (ymd 2024 6 5);
         mkRequest 8 (Some 1) (ymd 2024 6 4) (ymd 2024 6 6);
         mkRequest 9 (Some 1) (ymd 2024 6 5) (ymd 2024 6 8) ]).
Proof. apply book_all_no_double_booking. exact seeded_no_double_booking. Defined.

(** The three requests of the witness: the second is refused, the first and
    the third are stored. *)
Example book_all_june_2024 :
  Bookings
    (book_all seeded
       [ mkRequest 7 (Some 1) (ymd 2024 6 1) (ymd 2024 6 5);
         mkRequest 8 (Some 1) (ymd 2024 6 4) (ymd 2024 6 6);
         mkRequest 9 (Some 1) (ymd 2024 6 5) (ymd 2024 6 8) ]) =
  {[ 1 := mkBooking 7 1 (ymd 2024 6 1) (ymd 2024 6 5) Pending;
     2 := mkBooking 9 1 (ymd 2024 6 5) (ymd 2024 6 8) Pending ]}.
Proof. reflexivity. Qed.

(** Every store reached from the seeded one by booking requests that follow
    one another satisfies the invariant. *)
Corollary book_all_seeded_no_double_booking (rs : list BookRequest) :
  no_double_booking (book_all seeded rs).
Proof.
  induction rs as [|r rs IH] using rev_ind; [exact seeded_no_double_booking|].
  unfold book_all. rewrite foldl_app. simpl.
  by apply book_selected_no_double_booking.
Qed.

(** The two calls of a session, made with no other write in between, are a
    run of [book_selected]. *)
Lemma session_steps_book_selected (db : Db) (r : BookRequest) :
  let st1 := session_step db (mkSession r AtCheck) in
  (session_step st1.1 st1.2).1 = book_step db r.
Proof.
  unfold session_step, book_step, book_selected. simpl.
  destruct (req_sel r) as [rid|] eqn:E; simpl; rewrite ?E; simpl; [|done].
  destruct (check_availability db rid (req_start r) (req_end r));
    simpl; rewrite ?E; simpl; [|done].
  by destruct (Rooms db !! rid).
Qed.

(** C1 (as stated, refuted): the active bookings of a room are not pairwise
    non-overlapping in every store that the program reaches.  Two sessions
    ask for room 1, for days 10 to 14 and for days 12 to 16; when both make
    their availability check before either inserts, both bookings are stored.
    And in one session: room 1 is booked for days 10 to 14 and cancelled, then
    booked for days 12 to 16, and the staff override sets the cancelled
    booking to Confirmed. *)
Lemma double_booking_reachable :
  let sessions := [ mkSession (mkRequest 7 (Some 1) 10 14) AtCheck;
                    mkSession (mkRequest 8 (Some 1) 12 16) AtCheck ] in
  let db2 := (run_schedule seeded sessions [0; 1; 0; 1]%nat).1 in
  let db3 := (set_status (book_selected db_cancelled 8 (Some 1) 12 16).1
                         (Some 1) (Some Confirmed)).1 in
  no_double_booking seeded ∧
  Bookings db2 = {[ 1 := mkBooking 7 1 10 14 Pending; 2 := mkBooking 8 1 12 16 Pending ]} ∧
  dates_overlap 10 14 12 16 = true ∧
  ¬ no_double_booking db2 ∧
  Bookings db3 = {[ 1 := mkBooking 7 1 10 14 Confirmed; 2 := mkBooking 8 1 12 16 Pending ]} ∧
  ¬ no_double_booking db3.
Proof.
  split_and!; [exact seeded_no_double_booking | reflexivity | reflexivity | | reflexivity |].
  - intros Hinv.
    discriminate (Hinv 1 2 (mkBooking 7 1 10 14 Pending) (mkBooking 8 1 12 16 Pending)
                    ltac:(done) eq_refl eq_refl eq_refl (or_introl eq_refl)
                    (or_introl eq_refl)).
  - intros Hinv.
    discriminate (Hinv 1 2 (mkBooking 7 1 10 14 Confirmed) (mkBooking 8 1 12 16 Pending)
                    ltac:(done) eq_refl eq_refl eq_refl (or_intror eq_refl)
                    (or_introl eq_refl)).
Qed.

(** The invariant rests on the check being made on the store the insert is
    applied to: [create_booking] itself inserts whatever it is given.  Two
    requests for room 1 that are both checked on the seeded store and then
    both inserted leave two overlapping Pending bookings. *)
Example create_booking_unchecked :
  let db1 := (create_booking seeded 7 1 10 14).1 in
  let db2 := (create_booking db1 8 1 12 16).1 in
  check_availability seeded 1 10 14 = true ∧
  check_availability seeded 1 12 16 = true ∧
  check_availability db1 1 12 16 = false ∧
  Bookings db2 = {[ 1 := mkBooking 7 1 10 14 Pending; 2 := mkBooking 8 1 12 16 Pending ]} ∧
  dates_overlap 10 14 12 16 = true.
Proof. split_and!; reflexivity. Qed.

(** ** The invariant under the other writes *)

Lemma update_booking_status_inactive (db : Db) (bid : Z) (s : BookingStatus) :
  ¬ active s → no_double_booking db → no_double_booking (update_booking_status db bid s).
Proof.
  intros Hs Hinv i j b1 b2 Hij H1 H2 Hroom A1 A2. simpl in H1, H2.
  destruct (decide (i = bid)) as [->|Hi].
  { rewrite lookup_alter_eq in H1. destruct (Bookings db !! bid); [|done].
    injection H1 as <-. done. }
  destruct (decide (j = bid)) as [->|Hj].
  { rewrite lookup_alter_eq in H2. destruct (Bookings db !! bid); [|done].
    injection H2 as <-. done. }
  rewrite lookup_alter_ne in H1, H2 by done. by apply (Hinv i j b1 b2).
Qed.

Lemma update_booking_status_still_active (db : Db) (bid : Z) (b : Booking)
    (s : BookingStatus) :
  Bookings db !! bid = Some b → active (status b) →
  no_double_booking db → no_double_booking (update_booking_status db bid s).
Proof.
  intros Hb Ha Hinv i j b1 b2 Hij H1 H2 Hroom A1 A2. simpl in H1, H2.
  assert (∀ k bk, alter (with_status s) bid (Bookings db) !! k = Some bk →
            ∃ bk', Bookings db !! k = Some bk' ∧ room_id bk' = room_id bk ∧
                   check_in bk' = check_in bk ∧ check_out bk' = check_out bk ∧
                   (active (status bk) → active (status bk'))) as Hcols.
  { intros k bk Hk. destruct (decide (k = bid)) as [->|Hne].
    - rewrite lookup_alter_eq, Hb in Hk. injection Hk as <-. by exists b.
    - rewrite lookup_alter_ne in Hk by done. by exists bk. }
  destruct (Hcols i b1 H1) as (b1' & L1 & R1 & I1 & O1 & Act1).
  destruct (Hcols j b2 H2) as (b2' & L2 & R2 & I2 & O2 & Act2).
  rewrite <-I1, <-O1, <-I2, <-O2.
  apply (Hinv i j b1' b2'); [done..|congruence|by apply Act1|by apply Act2].
Qed.

Lemma db_cancelled_no_double_booking : no_double_booking db_cancelled.
Proof.
  change (no_double_booking (update_booking_status db_booked 1 Cancelled)).
  apply update_booking_status_inactive; [|exact db_booked_no_double_booking].
  intros [?|?]; done.
Qed.

(** X1: cancelling keeps the invariant, whatever is selected and answered. *)
Theorem cancel_booking_no_double_booking (db : Db) (sel : option MyBookingRow)
    (confirm : bool) :
  no_double_booking db → no_double_booking (cancel_booking db sel confirm).1.
Proof.
  intros Hinv. unfold cancel_booking. destruct sel as [values|]; [|done].
  case_bool_decide; [done|]. destruct confirm; [|done]. simpl.
  apply update_booking_status_inactive; [|done]. intros [?|?]; done.
Qed.

Lemma cancel_booking_no_double_booking_witness :
  no_double_booking (cancel_booking db_booked (Some (mkRow 1 Pending ShownPending)) true).1.
Proof.
  apply cancel_booking_no_double_booking. exact db_booked_no_double_booking.
Defined.

(** X2: a payment recorded for a Pending or Confirmed booking keeps the
    invariant. *)
Theorem record_payment_no_double_booking (db : Db) (bid : Z) (b : Booking)
    (amount' : Q) (mode : string) :
  Bookings db !! bid = Some b → active (status b) →
  no_double_booking db → no_double_booking (record_payment db bid amount' mode).
Proof.
  intros Hb Ha Hinv. unfold record_payment.
  apply (update_booking_status_still_active _ bid b); [done..|].
  exact Hinv.
Qed.

Lemma record_payment_no_double_booking_witness :
  no_double_booking (record_payment db_booked 1 6000 "Card").
Proof.
  apply (record_payment_no_double_booking db_booked 1 (mkBooking 7 1 10 14 Pending));
    [reflexivity | by left | exact db_booked_no_double_booking].
Defined.

(** X3: the staff override is outside the overlap check: when [set_status]
    gives an active status (Pending or Confirmed) to a booking whose dates
    overlap those of another active booking of the same room, two active
    bookings of that room overlap afterwards. *)
Theorem set_status_can_double_book (db : Db) (bid j : Z) (b b' : Booking)
    (s : BookingStatus) :
  bid ≠ j → Bookings db !! bid = Some b → Bookings db !! j = Some b' →
  room_id b = room_id b' → active (status b') → active s →
  dates_overlap (check_in b) (check_out b) (check_in b') (check_out b') = true →
  ¬ no_double_booking (set_status db (Some bid) (Some s)).1.
Proof.
  intros Hne Hb Hb' Hroom Ha' Hs Ho Hinv.
  specialize (Hinv bid j (with_status s b) b' Hne). simpl in Hinv.
  rewrite lookup_alter_eq, Hb, lookup_alter_ne, Hb' in Hinv by done.
  rewrite Hinv in Ho; done.
Qed.

(** Room 1 is booked for days 10 to 14 and cancelled, then booked for days 12
    to 16; setting the cancelled booking to Confirmed double-books room 1. *)
Lemma set_status_can_double_book_witness :
  ¬ no_double_booking
      (set_status (book_selected db_cancelled 8 (Some 1) 12 16).1 (Some 1) (Some Confirmed)).1.
Proof.
  apply (set_status_can_double_book _ 1 2 (mkBooking 7 1 10 14 Cancelled)
           (mkBooking 8 1 12 16 Pending) Confirmed);
    [done | reflexivity | reflexivity | reflexivity | by left | by right | reflexivity].
Defined.

Example set_status_double_books_room_1 :
  let db1 := (book_selected db_cancelled 8 (Some 1) 12 16).1 in
  let db2 := (set_status db1 (Some 1) (Some Confirmed)).1 in
  no_double_booking db1 ∧
  Bookings db2 = {[ 1 := mkBooking 7 1 10 14 Confirmed; 2 := mkBooking 8 1 12 16 Pending ]}.
Proof.
  split; [|reflexivity].
  apply book_selected_no_double_booking, db_cancelled_no_double_booking.
Qed.

Example db_booked_bookings :
  Bookings db_booked = {[ 1 := mkBooking 7 1 10 14 Pending ]}.
Proof. reflexivity. Qed.

Example db_cancelled_bookings :
  Bookings db_cancelled = {[ 1 := mkBooking 7 1 10 14 Cancelled ]}.
Proof. reflexivity. Qed.

Lemma seeded_keys_below_seq : keys_below_seq seeded.
Proof. intros k b H. unfold seeded in H. simpl in H. by rewrite lookup_empty in H. Qed.

Lemma next_key_unused (db : Db) :
  keys_below_seq db → Bookings db !! (bookings_seq db + 1) = None.
Proof.
  intros Hk. destruct (Bookings db !! (bookings_seq db + 1)) as [b|] eqn:E; [|done].
  apply Hk in E. lia.
Qed.

Lemma create_booking_keys_below_seq (db : Db) (cust rid : Z) (ci co : date) :
  keys_below_seq db → keys_below_seq (create_booking db cust rid ci co).1.
Proof.
  intros Hk k b H. simpl in *.
  apply lookup_insert_Some in H as [[<- _]|[_ H]]; [lia|].
  apply Hk in H. lia.
Qed.

Lemma update_booking_status_keys_below_seq (db : Db) (bid : Z) (s : BookingStatus) :
  keys_below_seq db → keys_below_seq (update_booking_status db bid s).
Proof.
  intros Hk k b H. simpl in *.
  destruct (decide (k = bid)) as [->|Hne].
  - rewrite lookup_alter_eq in H.
    destruct (Bookings db !! bid) as [b0|] eqn:E; [|done]. by apply (Hk bid b0).
  - rewrite lookup_alter_ne in H by done. by apply (Hk k b).
Qed.



(** ** Staff status override *)

(** C3 (as stated, refuted): a Cancelled booking is set back to Pending, and
    the callback ends in "Status updated successfully". *)
Lemma set_status_out_of_cancelled :
  status <$> Bookings db_cancelled !! 1 = Some Cancelled ∧
  (set_status db_cancelled (Some 1) (Some Pending)).2 = StatusUpdated ∧
  status <$> Bookings (set_status db_cancelled (Some 1) (Some Pending)).1 !! 1 = Some Pending.
Proof. split_and!; reflexivity. Qed.

(** C3 (amended): [set_status] stores the selected status on the selected
    booking whatever the current status of the booking, Completed and
    Cancelled included, and whichever of the four statuses is selected; the
    other columns of the row and the other rows are unchanged, and the
    callback ends in "Status updated successfully". *)
Theorem set_status_any_transition (db : Db) (bid : Z) (b : Booking) (s : BookingStatus) :
  Bookings db !! bid = Some b →
  let res := set_status db (Some bid) (Some s) in
  res.2 = StatusUpdated ∧
  Bookings res.1 !! bid = Some (with_status s b) ∧
  (∀ j, j ≠ bid → Bookings res.1 !! j = Bookings db !! j).
Proof.
  intros Hb. simpl. split_and!; [done| |].
  - by rewrite lookup_alter_eq, Hb.
  - intros j Hj. by apply lookup_alter_ne.
Qed.

Lemma set_status_any_transition_witness :
  let res := set_status db_cancelled (Some 1) (Some Confirmed) in
  res.2 = StatusUpdated ∧
  Bookings res.1 !! 1 = Some (with_status Confirmed (mkBooking 7 1 10 14 Cancelled)) ∧
  (∀ j, j ≠ 1 → Bookings res.1 !! j = Bookings db_cancelled !! j).
Proof.
  apply (set_status_any_transition db_cancelled 1 (mkBooking 7 1 10 14 Cancelled) Confirmed).
  reflexivity.
Defined.

(** ** Payments *)

(** C4 (as stated, refuted): [record_payment] appends a payment of amount 0
    for a Cancelled booking, which becomes Confirmed, and a payment of a
    negative amount for a booking id that no booking has. *)
Lemma record_payment_unvalidated :
  status <$> Bookings db_cancelled !! 1 = Some Cancelled ∧
  Payments (record_payment db_cancelled 1 0 "Card") = [mkPayment 1 1 0 "Card"] ∧
  status <$> Bookings (record_payment db_cancelled 1 0 "Card") !! 1 = Some Confirmed ∧
  Bookings seeded !! 42 = None ∧
  Payments (record_payment seeded 42 (-5) "Cash") = [mkPayment 1 42 (-5) "Cash"].
Proof. split_and!; reflexivity. Qed.

(** C4 (amended): [record_payment] validates nothing: for every amount, every
    booking id and every current status it appends one payment row under the
    next payment key, and it sets the status of the booking with that id, if
    there is one, to Confirmed, leaving the other rows as they were.  The
    refusal to pay for a cancelled booking is made before it by
    [pay_pending], from the status shown in the list. *)
Theorem record_payment_always_appends (db : Db) (bid : Z) (amount' : Q) (mode : string) :
  let db' := record_payment db bid amount' mode in
  Payments db' = (Payments db ++ [mkPayment (payments_seq db + 1) bid amount' mode])%list ∧
  Bookings db' !! bid = with_status Confirmed <$> Bookings db !! bid ∧
  (∀ j, j ≠ bid → Bookings db' !! j = Bookings db !! j) ∧
  (∀ values, row_payment values = ShownPending → row_status values = Cancelled →
             pay_pending db (Some values) = CannotPayCancelledInfo).
Proof.
  simpl. split_and!; [done| | |].
  - apply lookup_alter_eq.
  - intros j Hj. by apply lookup_alter_ne.
  - intros values Hp Hs. unfold pay_pending. rewrite Hp, Hs. done.
Qed.

(** C9: a payment recorded for a Pending booking makes it Confirmed, and a
    second payment for the same booking leaves it Confirmed: the bookings
    table is the same after the second payment as after the first. *)
Theorem record_payment_twice_confirmed (db : Db) (bid : Z) (b : Booking)
    (a1 a2 : Q) (m1 m2 : string) :
  Bookings db !! bid = Some b → status b = Pending →
  let db1 := record_payment db bid a1 m1 in
  let db2 := record_payment db1 bid a2 m2 in
  status <$> Bookings db1 !! bid = Some Confirmed ∧
  status <$> Bookings db2 !! bid = Some Confirmed ∧
  Bookings db2 = Bookings db1.
Proof.
  intros Hb Hs. simpl.
  assert (alter (with_status Confirmed) bid (alter (with_status Confirmed) bid (Bookings db))
          = alter (with_status Confirmed) bid (Bookings db)) as E.
  { apply map_eq. intros j. destruct (decide (j = bid)) as [->|Hj].
    - rewrite !lookup_alter_eq. by destruct (Bookings db !! bid).
    - by rewrite !lookup_alter_ne. }
  rewrite E, lookup_alter_eq, Hb. done.
Qed.

Lemma record_payment_twice_confirmed_witness :
  let db1 := record_payment db_booked 1 6000 "Card" in
  let db2 := record_payment db1 1 6000 "UPI" in
  status <$> Bookings db1 !! 1 = Some Confirmed ∧
  status <$> Bookings db2 !! 1 = Some Confirmed ∧
  Bookings db2 = Bookings db1.
Proof.
  apply (record_payment_twice_confirmed db_booked 1 (mkBooking 7 1 10 14 Pending));
    reflexivity.
Defined.

(** ** Room search *)

Lemma elem_of_candidate_rooms (db : Db) (room_type' : option string) (rid : Z) (r : Room) :
  (rid, r) ∈ candidate_rooms db room_type' ↔
  Rooms db !! rid = Some r ∧ r_status r ≠ Maintenance ∧ matches_type_filter room_type' r.
Proof.
  unfold candidate_rooms, matches_type_filter.
  destruct room_type' as [t|]; [case_bool_decide as Ht|];
    rewrite list_elem_of_filter, elem_of_map_to_list; simpl.
  - destruct Ht as [Ht1 Ht2]. split.
    + intros [[? ?] ?]. split_and!; [done..|]. by right; right.
    + intros (? & ? & [?|[?|?]]); done.
  - split; [|tauto]. intros [? ?]. split_and!; [done..|].
    destruct (decide (t = "")) as [|Ht1]; [by left|].
    destruct (decide (t = "All")) as [|Ht2]; [by right; left|].
    destruct Ht. done.
  - tauto.
Qed.

Lemma elem_of_find_available_rooms (db : Db) (ci co : date) (room_type' : option string)
    (rid : Z) (r : Room) :
  (rid, r) ∈ find_available_rooms db ci co room_type' ↔
  Rooms db !! rid = Some r ∧ r_status r ≠ Maintenance ∧
  matches_type_filter room_type' r ∧ check_availability db rid ci co = true.
Proof.
  unfold find_available_rooms.
  rewrite list_elem_of_filter, elem_of_candidate_rooms. simpl. tauto.
Qed.




(** ** Cancellation *)






(** The scenario of the specification: room 1 is booked for days 10 to 14 and
    paid, so the search over those days lists seven rooms; once the Confirmed
    booking is cancelled it lists all eight again. *)
Example cancel_confirmed_then_search :
  let db_paid := (do_pay db_booked 1 6000 "Card").1 in
  let db' := (cancel_booking db_paid (Some (mkRow 1 Confirmed ShownPaid)) true).1 in
  status <$> Bookings db_paid !! 1 = Some Confirmed ∧
  check_availability db_paid 1 10 14 = false ∧
  length (find_available_rooms db_paid 10 14 (Some "All")) = 7%nat ∧
  check_availability db' 1 10 14 = true ∧
  length (find_available_rooms db' 10 14 (Some "All")) = 8%nat.
Proof. split_and!; reflexivity. Qed.

(** * Further properties *)

(** ** From search to booking *)

Lemma alter_missing {A} (f : A → A) (m : gmap Z A) (i : Z) :
  m !! i = None → alter f i m = m.
Proof.
  intros Hi. apply map_eq. intros j. destruct (decide (j = i)) as [->|Hj].
  - by rewrite lookup_alter_eq, Hi.
  - by rewrite lookup_alter_ne.
Qed.

Lemma book_selected_available (db : Db) (cust rid : Z) (start end' : date) :
  check_availability db rid start end' = true →
  book_selected db cust (Some rid) start end' =
  ((create_booking db cust rid start end').1,
   match Rooms db !! rid with
   | Some r => ConfirmBooking (bookings_seq db + 1) (room_number r) (end' - start)
                 (price_per_night r * inject_Z (end' - start))%Q
   | None => RoomRowMissing (bookings_seq db + 1)
   end).
Proof.
  intros Hav. unfold book_selected. rewrite Hav. simpl.
  by destruct (Rooms db !! rid).
Qed.



(** ** What a booking does to availability *)

Lemma check_availability_after_insert (db : Db) (cust rid : Z) (start end' : date)
    (rid' : Z) (ci co : date) :
  keys_below_seq db →
  check_availability (create_booking db cust rid start end').1 rid' ci co =
  check_availability db rid' ci co &&
  negb (bool_decide (rid' = rid) && dates_overlap ci co start end').
Proof.
  intros Hk. pose proof (next_key_unused db Hk) as Hfresh.
  apply eq_true_iff_eq.
  rewrite andb_true_iff, negb_true_iff, andb_false_iff, bool_decide_eq_false,
    !check_availability_true.
  rewrite create_booking_bookings. split.
  - intros H. split.
    + intros bid b Hb. apply (H bid b). rewrite lookup_insert_ne; [done|].
      intros <-. congruence.
    + destruct (decide (rid' = rid)) as [->|Hne]; [right|by left].
      apply (H (bookings_seq db + 1) (mkBooking cust rid start end' Pending));
        [apply lookup_insert_eq | done | by left].
  - intros [H Hnew] bid b Hb Hr Ha.
    apply lookup_insert_Some in Hb as [[_ <-]|[_ Hb]]; simpl in *.
    + destruct Hnew as [Hne|Hno]; [by destruct Hne|done].
    + by apply (H bid b).
Qed.

(** X5: once [book_selected] has stored a booking for a room, the room is
    unavailable exactly on the intervals that overlap the booked one or that
    were unavailable before, the availability of every other room is as
    before, and a further [book_selected] for that room on overlapping dates
    ends in "Room no longer available" and stores nothing. *)
Theorem booked_room_is_taken (db : Db) (cust rid : Z) (start end' : date) :
  keys_below_seq db → check_availability db rid start end' = true →
  let db' := (book_selected db cust (Some rid) start end').1 in
  (∀ rid' ci co,
     check_availability db' rid' ci co =
     check_availability db rid' ci co &&
     negb (bool_decide (rid' = rid) && dates_overlap ci co start end')) ∧
  (∀ cust' ci co,
     dates_overlap ci co start end' = true →
     book_selected db' cust' (Some rid) ci co = (db', RoomNoLongerAvailable)).
Proof.
  intros Hk Hav. cbv zeta. rewrite (book_selected_available _ _ _ _ _ Hav). cbn [fst].
  assert (∀ rid' ci co,
     check_availability (create_booking db cust rid start end').1 rid' ci co =
     check_availability db rid' ci co &&
     negb (bool_decide (rid' = rid) && dates_overlap ci co start end')) as H.
  { intros. by apply check_availability_after_insert. }
  split; [exact H|].
  intros cust' ci co Ho. unfold book_selected.
  rewrite H, Ho, bool_decide_eq_true_2, andb_false_r by done. done.
Qed.

Lemma booked_room_is_taken_witness :
  let db' := (book_selected seeded 7 (Some 1) 10 14).1 in
  (∀ rid' ci co,
     check_availability db' rid' ci co =
     check_availability seeded rid' ci co &&
     negb (bool_decide (rid' = 1) && dates_overlap ci co 10 14)) ∧
  (∀ cust' ci co,
     dates_overlap ci co 10 14 = true →
     book_selected db' cust' (Some 1) ci co = (db', RoomNoLongerAvailable)).
Proof.
  apply (booked_room_is_taken seeded 7 1 10 14);
    [exact seeded_keys_below_seq | reflexivity].
Defined.

(** ** Booking keys *)

Lemma book_step_existing (db : Db) (r : BookRequest) :
  keys_below_seq db →
  keys_below_seq (book_step db r) ∧
  bookings_seq db ≤ bookings_seq (book_step db r) ∧
  Rooms (book_step db r) = Rooms db ∧ Payments (book_step db r) = Payments db ∧
  (∀ k b, Bookings db !! k = Some b → Bookings (book_step db r) !! k = Some b) ∧
  (∀ k b, Bookings (book_step db r) !! k = Some b →
          Bookings db !! k = Some b ∨ (bookings_seq db < k ∧ status b = Pending)).
Proof.
  intros Hk. unfold book_step, book_selected.
  destruct (req_sel r) as [rid|]; simpl; [|by split_and!; [done|lia|..]; auto].
  destruct (check_availability db rid (req_start r) (req_end r)); simpl;
    [|by split_and!; [done|lia|..]; auto].
  assert (∀ X : Db * BookOutcome, X.1 = (create_booking db (req_customer r) rid
            (req_start r) (req_end r)).1 → 
          keys_below_seq X.1 ∧ bookings_seq db ≤ bookings_seq X.1 ∧
          Rooms X.1 = Rooms db ∧ Payments X.1 = Payments db ∧
          (∀ k b, Bookings db !! k = Some b → Bookings X.1 !! k = Some b) ∧
          (∀ k b, Bookings X.1 !! k = Some b →
             Bookings db !! k = Some b ∨ (bookings_seq db < k ∧ status b = Pending))) as H.
  { intros X ->. split_and!.
    - by apply create_booking_keys_below_seq.
    - simpl. lia.
    - done.
    - done.
    - intros k b Hb. simpl. rewrite lookup_insert_ne; [done|].
      intros <-. apply Hk in Hb. lia.
    - intros k b Hb. simpl in Hb.
      apply lookup_insert_Some in Hb as [[<- <-]|[_ Hb]]; [right|by left].
      simpl. split; [lia|done]. }
  apply H. by destruct (Rooms db !! rid).
Qed.

(** X6: booking requests never change or remove a stored booking and never
    reuse a key: after any sequence of [book_selected] runs every earlier
    booking is stored unchanged, every other stored booking is Pending under
    a key above the earlier counter, and rooms and payments are as before. *)
Theorem book_all_keeps_existing (db : Db) (rs : list BookRequest) :
  keys_below_seq db →
  keys_below_seq (book_all db rs) ∧
  bookings_seq db ≤ bookings_seq (book_all db rs) ∧
  Rooms (book_all db rs) = Rooms db ∧ Payments (book_all db rs) = Payments db ∧
  (∀ k b, Bookings db !! k = Some b → Bookings (book_all db rs) !! k = Some b) ∧
  (∀ k b, Bookings (book_all db rs) !! k = Some b →
          Bookings db !! k = Some b ∨ (bookings_seq db < k ∧ status b = Pending)).
Proof.
  revert db. induction rs as [|r rs IH]; intros db Hk; simpl.
  { split_and!; [done|lia|done|done|auto|auto]. }
  destruct (book_step_existing db r Hk) as (Hk1 & Hs1 & Hr1 & Hp1 & Hold1 & Hnew1).
  destruct (IH _ Hk1) as (Hk2 & Hs2 & Hr2 & Hp2 & Hold2 & Hnew2).
  split_and!; [done|lia|congruence|congruence|auto|].
  intros k b Hb. destruct (Hnew2 k b Hb) as [Hb1|[Hlt Hp]].
  - apply Hnew1 in Hb1 as [?|[? ?]]; [by left|by right].
  - right. split; [lia|done].
Qed.

Lemma book_all_keeps_existing_witness :
  let rs := [ mkRequest 8 (Some 1) 12 16; mkRequest 9 (Some 2) 12 16 ] in
  keys_below_seq (book_all db_booked rs) ∧
  bookings_seq db_booked ≤ bookings_seq (book_all db_booked rs) ∧
  Rooms (book_all db_booked rs) = Rooms db_booked ∧
  Payments (book_all db_booked rs) = Payments db_booked ∧
  (∀ k b, Bookings db_booked !! k = Some b → Bookings (book_all db_booked rs) !! k = Some b) ∧
  (∀ k b, Bookings (book_all db_booked rs) !! k = Some b →
          Bookings db_booked !! k = Some b ∨ (bookings_seq db_booked < k ∧ status b = Pending)).
Proof.
  apply book_all_keeps_existing.
  apply create_booking_keys_below_seq, seeded_keys_below_seq.
Defined.

(** ** The status override and the invariant *)

(** X7: [set_status] keeps the no-double-booking invariant whenever it does
    not bring a booking back to life: when the selected status is Completed or
    Cancelled, or when the booking it is given to is Pending or Confirmed
    already. *)
Theorem set_status_no_double_booking (db : Db) (bid : Z) (s : BookingStatus) :
  (active s → ∀ b, Bookings db !! bid = Some b → active (status b)) →
  no_double_booking db →
  no_double_booking (set_status db (Some bid) (Some s)).1.
Proof.
  intros Hs Hinv. simpl.
  destruct (decide (active s)) as [Ha|Hna].
  - destruct (Bookings db !! bid) as [b|] eqn:Hb.
    + apply (update_booking_status_still_active db bid b); [done| |done]. by apply Hs.
    + unfold no_double_booking. simpl. by rewrite alter_missing.
  - by apply update_booking_status_inactive.
Qed.

Lemma set_status_no_double_booking_witness :
  no_double_booking (set_status db_booked (Some 1) (Some Completed)).1.
Proof.
  apply set_status_no_double_booking; [|exact db_booked_no_double_booking].
  intros [?|?]; done.
Defined.

(** ** Dashboard counts *)

Lemma filter_all {A} (l : list A) : filter (λ _, True) l = l.
Proof. induction l as [|x l IH]; [done|]. by rewrite filter_cons, decide_True, IH. Qed.

Lemma length_filter_disjoint {A} (P Q : A → Prop) `{∀ x, Decision (P x)}
    `{∀ x, Decision (Q x)} (l : list A) :
  (∀ x, P x → Q x → False) →
  (length (filter P l) + length (filter Q l) ≤ length l)%nat.
Proof.
  intros Hd. induction l as [|x l IH]; [done|].
  rewrite !filter_cons. destruct (decide (P x)), (decide (Q x)); simpl; try lia.
  by destruct (Hd x).
Qed.

Lemma size_count_rows {A} (t : gmap Z A) : size t = count_rows (λ _, True) t.
Proof. unfold count_rows. by rewrite filter_all, length_map_to_list. Qed.

Lemma count_rows_insert {A} (P : A → Prop) `{∀ x, Decision (P x)} (t : gmap Z A)
    (i : Z) (x : A) :
  t !! i = None →
  count_rows P (<[i:=x]> t) = ((if decide (P x) then 1 else 0) + count_rows P t)%nat.
Proof.
  intros Hi. unfold count_rows. rewrite (map_to_list_insert t i x Hi), filter_cons.
  simpl. by destruct (decide (P x)).
Qed.

Lemma count_rows_alter {A} (P : A → Prop) `{∀ x, Decision (P x)} (f : A → A)
    (t : gmap Z A) (i : Z) (x : A) :
  t !! i = Some x →
  (count_rows P (alter f i t) + (if decide (P x) then 1 else 0) =
   count_rows P t + (if decide (P (f x)) then 1 else 0))%nat.
Proof.
  intros Hi.
  assert (alter f i t = <[i := f x]> (delete i t)) as ->.
  { apply map_eq. intros j. destruct (decide (j = i)) as [->|Hj].
    - by rewrite lookup_alter_eq, lookup_insert_eq, Hi.
    - by rewrite lookup_alter_ne, lookup_insert_ne, lookup_delete_ne. }
  assert (t = <[i := x]> (delete i t)) as Ht.
  { by rewrite insert_delete_eq, insert_id. }
  rewrite Ht at 2.
  rewrite !count_rows_insert by apply lookup_delete_eq. lia.
Qed.

Lemma count_rows_zero {A} (P : A → Prop) `{∀ x, Decision (P x)} (t : gmap Z A) :
  count_rows P t = 0%nat ↔ ∀ k x, t !! k = Some x → ¬ P x.
Proof.
  unfold count_rows. rewrite length_zero_iff_nil. split.
  - intros Hnil k x Hk HP.
    apply (filter_nil_not_elem_of _ _ (k, x) Hnil HP). by apply elem_of_map_to_list.
  - intros Hno. apply elem_of_nil_inv. intros [k x] Hin.
    apply list_elem_of_filter in Hin as [HP Hin]. apply elem_of_map_to_list in Hin.
    by apply (Hno k x).
Qed.

Lemma size_alter {A} (f : A → A) (t : gmap Z A) (i : Z) : size (alter f i t) = size t.
Proof.
  destruct (t !! i) as [x|] eqn:Hi; [|by rewrite alter_missing].
  rewrite !size_count_rows.
  pose proof (count_rows_alter (λ _, True) f t i x Hi) as H.
  rewrite !decide_True in H by done. lia.
Qed.

(** X8: in the dictionary of [get_dashboard_stats] the pending and the
    confirmed bookings together are at most the total of bookings, and the
    available rooms are at most the total of rooms. *)
Theorem dashboard_counts_bounded (db : Db) :
  let s := get_dashboard_stats db in
  (pending_bookings s + confirmed_bookings s ≤ total_bookings s)%nat ∧
  (available_rooms s ≤ total_rooms s)%nat.
Proof.
  simpl. rewrite <-!length_map_to_list. unfold count_rows. split.
  - apply length_filter_disjoint. intros [k b]. simpl. congruence.
  - pose proof (length_filter_disjoint (λ kr : Z * Room, r_status kr.2 = Available)
                  (λ _, False) (map_to_list (Rooms db))) as H.
    lapply H; [lia|tauto].
Qed.

(** X9: a booking stored by [book_selected] raises the total and the pending
    count of the dashboard by one and changes no other entry. *)
Theorem dashboard_after_booking (db : Db) (cust rid : Z) (start end' : date) :
  keys_below_seq db → check_availability db rid start end' = true →
  let s := get_dashboard_stats db in
  let s' := get_dashboard_stats (book_selected db cust (Some rid) start end').1 in
  total_bookings s' = S (total_bookings s) ∧
  pending_bookings s' = S (pending_bookings s) ∧
  confirmed_bookings s' = confirmed_bookings s ∧
  total_rooms s' = total_rooms s ∧
  available_rooms s' = available_rooms s ∧
  total_revenue s' = total_revenue s.
Proof.
  intros Hk Hav. cbv zeta. rewrite (book_selected_available _ _ _ _ _ Hav). cbn [fst].
  pose proof (next_key_unused db Hk) as Hfresh.
  unfold get_dashboard_stats. simpl.
  rewrite map_size_insert_None, !count_rows_insert by done. simpl.
  done.
Qed.

Lemma dashboard_after_booking_witness :
  let s := get_dashboard_stats seeded in
  let s' := get_dashboard_stats (book_selected seeded 7 (Some 1) 10 14).1 in
  total_bookings s' = S (total_bookings s) ∧
  pending_bookings s' = S (pending_bookings s) ∧
  confirmed_bookings s' = confirmed_bookings s ∧
  total_rooms s' = total_rooms s ∧
  available_rooms s' = available_rooms s ∧
  total_revenue s' = total_revenue s.
Proof.
  apply (dashboard_after_booking seeded 7 1 10 14);
    [exact seeded_keys_below_seq | reflexivity].
Defined.

Lemma count_status_update (db : Db) (bid : Z) (b : Booking) (s st : BookingStatus) :
  Bookings db !! bid = Some b →
  (count_rows (λ b, status b = st) (Bookings (update_booking_status db bid s))
   + (if decide (status b = st) then 1 else 0) =
   count_rows (λ b, status b = st) (Bookings db)
   + (if decide (s = st) then 1 else 0))%nat.
Proof.
  intros Hb.
  pose proof (count_rows_alter (λ b, status b = st) (with_status s) (Bookings db) bid b Hb)
    as H.
  simpl in *. exact H.
Qed.

(** X10: a payment recorded for a Pending booking moves one booking from the
    pending to the confirmed count of the dashboard; for a Confirmed booking
    it leaves both counts as they were; the totals of bookings and rooms do
    not change. *)
Theorem dashboard_after_payment (db : Db) (bid : Z) (b : Booking)
    (amount' : Q) (mode : string) :
  Bookings db !! bid = Some b →
  let s := get_dashboard_stats db in
  let s' := get_dashboard_stats (record_payment db bid amount' mode) in
  total_bookings s' = total_bookings s ∧
  total_rooms s' = total_rooms s ∧ available_rooms s' = available_rooms s ∧
  (status b = Pending →
   pending_bookings s = S (pending_bookings s') ∧
   confirmed_bookings s' = S (confirmed_bookings s)) ∧
  (status b = Confirmed →
   pending_bookings s' = pending_bookings s ∧
   confirmed_bookings s' = confirmed_bookings s).
Proof.
  intros Hb. cbv zeta.
  set (db0 := mkDb (Rooms db) (Bookings db) (bookings_seq db)
                (Payments db ++ [mkPayment (payments_seq db + 1) bid amount' mode])
                (payments_seq db + 1)).
  pose proof (count_status_update db0 bid b Confirmed Pending Hb) as HP.
  pose proof (count_status_update db0 bid b Confirmed Confirmed Hb) as HC.
  unfold get_dashboard_stats, record_payment. fold db0. simpl in *.
  rewrite size_alter.
  split_and!; [done..| |]; intros Hs; rewrite Hs in HP, HC; simpl in HP, HC; lia.
Qed.

Lemma dashboard_after_payment_witness :
  let s := get_dashboard_stats db_booked in
  let s' := get_dashboard_stats (record_payment db_booked 1 6000 "Card") in
  total_bookings s' = total_bookings s ∧
  total_rooms s' = total_rooms s ∧ available_rooms s' = available_rooms s ∧
  (Pending = Pending →
   pending_bookings s = S (pending_bookings s') ∧
   confirmed_bookings s' = S (confirmed_bookings s)) ∧
  (Pending = Confirmed →
   pending_bookings s' = pending_bookings s ∧
   confirmed_bookings s' = confirmed_bookings s).
Proof.
  apply (dashboard_after_payment db_booked 1 (mkBooking 7 1 10 14 Pending)). reflexivity.
Defined.

(** X11: [cancel_booking], once confirmed, on a stored booking that the list
    does not show as Cancelled, takes one booking off the pending count when
    the booking is Pending and one off the confirmed count when it is
    Confirmed, and leaves the other count and the totals as they were. *)
Theorem dashboard_after_cancel (db : Db) (values : MyBookingRow) (b : Booking) :
  Bookings db !! row_bid values = Some b → row_status values ≠ Cancelled →
  let s := get_dashboard_stats db in
  let s' := get_dashboard_stats (cancel_booking db (Some values) true).1 in
  total_bookings s' = total_bookings s ∧
  total_rooms s' = total_rooms s ∧ available_rooms s' = available_rooms s ∧
  (status b = Pending →
   pending_bookings s = S (pending_bookings s') ∧
   confirmed_bookings s' = confirmed_bookings s) ∧
  (status b = Confirmed →
   confirmed_bookings s = S (confirmed_bookings s') ∧
   pending_bookings s' = pending_bookings s).
Proof.
  intros Hb Hrow. cbv zeta.
  assert ((cancel_booking db (Some values) true).1 =
          update_booking_status db (row_bid values) Cancelled) as ->.
  { unfold cancel_booking. by rewrite bool_decide_eq_false_2. }
  pose proof (count_status_update db (row_bid values) b Cancelled Pending Hb) as HP.
  pose proof (count_status_update db (row_bid values) b Cancelled Confirmed Hb) as HC.
  unfold get_dashboard_stats. simpl in *. rewrite size_alter.
  split_and!; [done..| |]; intros Hs; rewrite Hs in HP, HC; simpl in HP, HC; lia.
Qed.

Lemma dashboard_after_cancel_witness :
  let s := get_dashboard_stats db_booked in
  let s' := get_dashboard_stats
              (cancel_booking db_booked (Some (mkRow 1 Pending ShownPending)) true).1 in
  total_bookings s' = total_bookings s ∧
  total_rooms s' = total_rooms s ∧ available_rooms s' = available_rooms s ∧
  (Pending = Pending →
   pending_bookings s = S (pending_bookings s') ∧
   confirmed_bookings s' = confirmed_bookings s) ∧
  (Pending = Confirmed →
   confirmed_bookings s = S (confirmed_bookings s') ∧
   pending_bookings s' = pending_bookings s).
Proof.
  apply (dashboard_after_cancel db_booked (mkRow 1 Pending ShownPending)
           (mkBooking 7 1 10 14 Pending)); [reflexivity | done].
Defined.

(** ** The "My Bookings" list and its callbacks *)

Lemma elem_of_my_bookings (db : Db) (cust : Z) (row : MyBookingRow) :
  row ∈ my_bookings db cust ↔
  ∃ b, Bookings db !! row_bid row = Some b ∧ customer_id b = cust ∧
       is_Some (Rooms db !! room_id b) ∧ row_status row = status b ∧
       row_payment row = match payments_of db (row_bid row) with
                         | [] => ShownPending
                         | _ => ShownPaid
                         end.
Proof.
  unfold my_bookings. rewrite list_elem_of_bind. split.
  - intros ([bid b] & Hin & Hkb). apply elem_of_map_to_list in Hkb. simpl in Hin.
    case_bool_decide; [|by apply elem_of_nil in Hin].
    destruct (Rooms db !! room_id b) as [r|] eqn:Hr; [|by apply elem_of_nil in Hin].
    destruct (payments_of db bid) as [|p ps] eqn:Hp.
    + apply list_elem_of_singleton in Hin as ->. simpl. exists b. rewrite Hp.
      split_and!; eauto.
    + assert (row = mkRow bid (status b) ShownPaid) as ->.
      { apply elem_of_cons in Hin as [->|Hin]; [done|].
        by apply list_elem_of_fmap in Hin as (p' & -> & _). }
      simpl. exists b. rewrite Hp. split_and!; eauto.
  - intros (b & Hb & Hc & [r Hr] & Hs & Hp). exists (row_bid row, b).
    split; [|by apply elem_of_map_to_list]. simpl.
    rewrite bool_decide_eq_true_2, Hr by done.
    destruct row as [bid st pay]. simpl in *. subst st.
    destruct (payments_of db bid) as [|p ps]; subst pay.
    + by apply list_elem_of_singleton.
    + left.
Qed.

Lemma payments_of_nil (db : Db) (bid : Z) :
  payments_of db bid = [] ↔ ∀ p, p ∈ Payments db → p_booking_id p ≠ bid.
Proof.
  unfold payments_of. split.
  - intros Hnil p Hin Hp. by apply (filter_nil_not_elem_of _ _ p Hnil Hp).
  - intros Hno. apply elem_of_nil_inv. intros p Hin.
    apply list_elem_of_filter in Hin as [Hp Hin]. by apply (Hno p).
Qed.

(** X12: the "My Bookings" list is current and complete: every row stands for
    a stored booking of the customer whose room exists, shows the stored
    status, and shows 'Paid' exactly when a payment refers to the booking; and
    every booking of the customer whose room exists has a row. *)
Theorem my_bookings_current (db : Db) (cust : Z) :
  (∀ row, row ∈ my_bookings db cust →
     ∃ b, Bookings db !! row_bid row = Some b ∧ customer_id b = cust ∧
          is_Some (Rooms db !! room_id b) ∧ row_status row = status b ∧
          (row_payment row = ShownPaid ↔
           ∃ p, p ∈ Payments db ∧ p_booking_id p = row_bid row)) ∧
  (∀ bid b, Bookings db !! bid = Some b → customer_id b = cust →
            is_Some (Rooms db !! room_id b) →
            ∃ row, row ∈ my_bookings db cust ∧ row_bid row = bid ∧
                   row_status row = status b).
Proof.
  split.
  - intros row (b & Hb & Hc & Hr & Hs & Hp)%elem_of_my_bookings.
    exists b. split_and!; [done..|].
    destruct (payments_of db (row_bid row)) as [|p ps] eqn:E; rewrite Hp.
    + split; [done|]. intros (p & Hin & Hbid).
      by destruct (proj1 (payments_of_nil db (row_bid row)) E p Hin).
    + split; [|done]. intros _. exists p.
      assert (p ∈ payments_of db (row_bid row)) as Hin by (rewrite E; left).
      apply list_elem_of_filter in Hin as [? ?]. done.
  - intros bid b Hb Hc Hr.
    exists (mkRow bid (status b)
              match payments_of db bid with [] => ShownPending | _ => ShownPaid end).
    split_and!; [|done..]. apply elem_of_my_bookings. by exists b.
Qed.



(** X14: once [do_pay] has recorded a payment for a booking, every row that
    the list shows for that booking is Confirmed and 'Paid', and
    [pay_pending] on it ends in "This booking is already paid": the list
    offers no second payment. *)
Theorem no_second_payment (db : Db) (bid : Z) (amount' : Q) (mode : string)
    (cust : Z) (row : MyBookingRow) :
  mode ≠ "" →
  row ∈ my_bookings (do_pay db bid amount' mode).1 cust → row_bid row = bid →
  row_status row = Confirmed ∧ row_payment row = ShownPaid ∧
  pay_pending (do_pay db bid amount' mode).1 (Some row) = AlreadyPaidInfo.
Proof.
  intros Hmode. unfold do_pay. rewrite bool_decide_eq_false_2 by done.
  cbn [fst]. intros (b & Hb & Hc & Hr & Hs & Hp)%elem_of_my_bookings Hbid.
  assert (payments_of (record_payment db bid amount' mode) (row_bid row) ≠ []) as Hne.
  { intros Hnil.
    apply (proj1 (payments_of_nil _ _) Hnil (mkPayment (payments_seq db + 1) bid amount' mode));
      [|done].
    simpl. apply elem_of_app. right. left. }
  assert (row_payment row = ShownPaid) as Hpaid.
  { rewrite Hp. by destruct (payments_of _ _). }
  split_and!; [|done|].
  - rewrite Hs. simpl in Hb. rewrite Hbid, lookup_alter_eq in Hb.
    destruct (Bookings db !! bid); [|done]. by injection Hb as <-.
  - unfold pay_pending. by rewrite Hpaid.
Qed.

Lemma no_second_payment_witness :
  pay_pending (do_pay db_booked 1 6000 "Card").1 (Some (mkRow 1 Confirmed ShownPaid))
  = AlreadyPaidInfo.
Proof.
  apply (no_second_payment db_booked 1 6000 "Card" 7 (mkRow 1 Confirmed ShownPaid));
    [done| |reflexivity].
  apply elem_of_my_bookings. exists (mkBooking 7 1 10 14 Confirmed).
  split_and!; [reflexivity | reflexivity | by eexists | reflexivity | reflexivity].
Defined.

(** X15: after [cancel_booking] has cancelled a booking, every row that the
    list shows for it is Cancelled; on such a row [cancel_booking] ends in
    "Booking is already cancelled" with the store unchanged, and
    [pay_pending] does not open the payment window. *)
Theorem cancelled_row_is_final (db : Db) (cust : Z) (row row' : MyBookingRow) :
  row_status row ≠ Cancelled →
  row' ∈ my_bookings (cancel_booking db (Some row) true).1 cust →
  row_bid row' = row_bid row →
  let db' := (cancel_booking db (Some row) true).1 in
  row_status row' = Cancelled ∧
  (∀ confirm, cancel_booking db' (Some row') confirm = (db', AlreadyCancelledInfo)) ∧
  (∀ total, pay_pending db' (Some row') ≠ PaymentWindow (row_bid row') total).
Proof.
  intros Hrow. cbv zeta.
  assert ((cancel_booking db (Some row) true).1 =
          update_booking_status db (row_bid row) Cancelled) as ->.
  { unfold cancel_booking. by rewrite bool_decide_eq_false_2. }
  intros (b & Hb & Hc & Hr & Hs & Hp)%elem_of_my_bookings Hbid.
  assert (row_status row' = Cancelled) as Hcan.
  { rewrite Hs. simpl in Hb. rewrite Hbid, lookup_alter_eq in Hb.
    destruct (Bookings db !! row_bid row); [|done]. by injection Hb as <-. }
  split_and!; [done| |].
  - intros confirm. unfold cancel_booking. by rewrite bool_decide_eq_true_2.
  - intros total. unfold pay_pending. rewrite Hcan.
    by destruct (row_payment row').
Qed.

Lemma cancelled_row_is_final_witness :
  let db' := (cancel_booking db_booked (Some (mkRow 1 Pending ShownPending)) true).1 in
  Cancelled = Cancelled ∧
  (∀ confirm, cancel_booking db' (Some (mkRow 1 Cancelled ShownPending)) confirm
              = (db', AlreadyCancelledInfo)) ∧
  (∀ total, pay_pending db' (Some (mkRow 1 Cancelled ShownPending)) ≠ PaymentWindow 1 total).
Proof.
  apply (cancelled_row_is_final db_booked 7 (mkRow 1 Pending ShownPending)
           (mkRow 1 Cancelled ShownPending)); [done| |reflexivity].
  apply elem_of_my_bookings. exists (mkBooking 7 1 10 14 Cancelled).
  split_and!; [reflexivity | reflexivity | by eexists | reflexivity | reflexivity].
Defined.

(** ** Deleting a room *)

Lemma delete_room_blocked (db : Db) (rid : Z) :
  bool_decide (0 < count_rows (λ b, room_id b = rid) (Bookings db))%nat = true ↔
  ∃ bid b, Bookings db !! bid = Some b ∧ room_id b = rid.
Proof.
  rewrite bool_decide_eq_true. split.
  - intros Hpos.
    destruct (filter (λ kb : Z * Booking, room_id kb.2 = rid) (map_to_list (Bookings db)))
      as [|[bid b] l] eqn:E.
    { unfold count_rows in Hpos. rewrite E in Hpos. simpl in Hpos. lia. }
    assert ((bid, b) ∈ filter (λ kb : Z * Booking, room_id kb.2 = rid)
                         (map_to_list (Bookings db))) as Hin by (rewrite E; left).
    apply list_elem_of_filter in Hin as [Hr Hin]. apply elem_of_map_to_list in Hin.
    by exists bid, b.
  - intros (bid & b & Hb & Hr).
    destruct (count_rows (λ b, room_id b = rid) (Bookings db)) eqn:E; [|lia].
    by destruct (proj1 (count_rows_zero _ _) E bid b Hb).
Qed.

(** X16: [delete_room] keeps every booking's room: when every booking refers
    to an existing room before it, so it does after it, whatever is selected
    and answered. *)
Theorem delete_room_keeps_booked_rooms (db : Db) (sel : option Z) (confirm : bool) :
  bookings_have_rooms db → bookings_have_rooms (delete_room db sel confirm).1.
Proof.
  intros Hrooms. unfold delete_room. destruct sel as [rid|]; [|done].
  destruct confirm; simpl; [|done].
  destruct (bool_decide (0 < count_rows (λ b, room_id b = rid) (Bookings db))%nat)
    eqn:E; simpl; [done|].
  intros bid b Hb. simpl in *.
  assert (room_id b ≠ rid) as Hne.
  { intros Hr. apply not_true_iff_false in E. apply E, delete_room_blocked. by exists bid, b. }
  rewrite lookup_delete_ne by done. by apply (Hrooms bid b).
Qed.

Lemma delete_room_keeps_booked_rooms_witness :
  bookings_have_rooms (delete_room db_booked (Some 1) true).1.
Proof.
  apply delete_room_keeps_booked_rooms. intros bid b Hb.
  change (Bookings db_booked) with ({[ 1 := mkBooking 7 1 10 14 Pending ]} : gmap Z Booking) in Hb.
  apply lookup_singleton_Some in Hb as [_ <-]. by eexists.
Defined.

(** X17: a confirmed [delete_room] is refused, with the store unchanged, as
    soon as any booking refers to the room, whatever the booking's status,
    Cancelled and Completed included; otherwise it removes that room and
    nothing else, after which no search returns the room and every other room
    is returned as before. *)
Theorem delete_room_outcome (db : Db) (rid : Z) :
  ((∃ bid b, Bookings db !! bid = Some b ∧ room_id b = rid) →
   delete_room db (Some rid) true = (db, RoomHasBookings)) ∧
  ((∀ bid b, Bookings db !! bid = Some b → room_id b ≠ rid) →
   let db' := (delete_room db (Some rid) true).1 in
   (delete_room db (Some rid) true).2 = RoomDeleted ∧
   Rooms db' = delete rid (Rooms db) ∧
   Bookings db' = Bookings db ∧ Payments db' = Payments db ∧
   ∀ rid' r ci co room_type',
     (rid', r) ∈ find_available_rooms db' ci co room_type' ↔
     rid' ≠ rid ∧ (rid', r) ∈ find_available_rooms db ci co room_type').
Proof.
  split.
  - intros H. apply delete_room_blocked in H. unfold delete_room. simpl. by rewrite H.
  - intros H. cbv zeta.
    assert (bool_decide (0 < count_rows (λ b, room_id b = rid) (Bookings db))%nat = false)
      as E.
    { apply not_true_iff_false. intros (bid & b & Hb & Hr)%delete_room_blocked.
      by apply (H bid b). }
    unfold delete_room. simpl. rewrite E. simpl. split_and!; [done..|].
    intros rid' r ci co room_type'. rewrite !elem_of_find_available_rooms. simpl.
    assert (∀ x, check_availability
                   (mkDb (delete rid (Rooms db)) (Bookings db) (bookings_seq db)
                         (Payments db) (payments_seq db)) x ci co
                 = check_availability db x ci co) as -> by done.
    rewrite lookup_delete_Some. intuition congruence.
Qed.

(** A room whose only booking is cancelled still cannot be deleted. *)
Example delete_room_with_cancelled_booking :
  delete_room db_cancelled (Some 1) true = (db_cancelled, RoomHasBookings) ∧
  (delete_room seeded (Some 1) true).2 = RoomDeleted.
Proof. split; reflexivity. Qed.

(** ** Accounts *)

Lemma head_filter_is_Some {A} (P : A → Prop) `{∀ x, Decision (P x)} (l : list A) :
  is_Some (head (filter P l)) ↔ ∃ x, x ∈ l ∧ P x.
Proof.
  rewrite head_is_Some. split.
  - intros Hne. destruct (filter P l) as [|x l'] eqn:E; [done|].
    assert (x ∈ filter P l) as Hin by (rewrite E; left).
    apply list_elem_of_filter in Hin as [? ?]. by exists x.
  - intros (x & Hin & HP) Hnil. by apply (filter_nil_not_elem_of _ _ x Hnil HP).
Qed.

Lemma head_filter_Some {A} (P : A → Prop) `{∀ x, Decision (P x)} (l : list A) (x : A) :
  head (filter P l) = Some x → x ∈ l ∧ P x.
Proof.
  intros Hh. apply head_Some_elem_of in Hh.
  apply list_elem_of_filter in Hh as [? ?]. done.
Qed.

Lemma head_filter_unique {A} (P : A → Prop) `{∀ x, Decision (P x)} (l : list A) (x : A) :
  x ∈ l → P x → (∀ y, y ∈ l → P y → y = x) → head (filter P l) = Some x.
Proof.
  intros Hin HP Huniq.
  destruct (head (filter P l)) as [y|] eqn:E.
  - apply head_filter_Some in E as [Hy HPy]. by rewrite (Huniq y Hy HPy).
  - assert (is_Some (head (filter P l))) as [? ?]; [|congruence].
    apply head_filter_is_Some. by exists x.
Qed.

Lemma customer_by_email_None (st : Store) (email : string) :
  customer_by_email st email = None ↔
  ∀ k c, Customers st !! k = Some c → c_email c ≠ email.
Proof.
  unfold customer_by_email. rewrite eq_None_not_Some, head_filter_is_Some. split.
  - intros Hno k c Hk He. apply Hno. exists (k, c).
    split; [by apply elem_of_map_to_list|done].
  - intros Hno ([k c] & Hin & He). apply elem_of_map_to_list in Hin.
    by apply (Hno k c).
Qed.

Lemma customer_by_email_Some (st : Store) (email : string) (k : Z) (c : Customer) :
  customer_by_email st email = Some (k, c) →
  Customers st !! k = Some c ∧ c_email c = email.
Proof.
  intros [Hin He]%head_filter_Some. by apply elem_of_map_to_list in Hin.
Qed.

Lemma customer_by_email_unique (st : Store) (k : Z) (c : Customer) :
  unique_emails st → Customers st !! k = Some c →
  customer_by_email st (c_email c) = Some (k, c).
Proof.
  intros Hu Hk. apply head_filter_unique; [by apply elem_of_map_to_list|done|].
  intros [k' c'] Hin He. apply elem_of_map_to_list in Hin. simpl in He.
  assert (k' = k) as -> by (by apply (Hu k' k c' c)). congruence.
Qed.

Lemma staff_by_email_inserted (st : Store) (email : string) (k : Z) (row : StaffRow) :
  staff_by_email st email = None → s_email row = email →
  head (filter (λ ks : Z * StaffRow, s_email ks.2 = email)
               (map_to_list (<[k := row]> (Staff st)))) = Some (k, row).
Proof.
  intros Hnone He.
  apply head_filter_unique; [apply elem_of_map_to_list, lookup_insert_eq|done|].
  intros [k' row'] Hin He'. apply elem_of_map_to_list in Hin. simpl in He'.
  apply lookup_insert_Some in Hin as [[-> ->]|[_ Hin]]; [done|].
  exfalso. unfold staff_by_email in Hnone.
  apply eq_None_not_Some in Hnone. apply Hnone, head_filter_is_Some.
  exists (k', row'). split; [by apply elem_of_map_to_list|done].
Qed.

Section AccountProperties.
Variable sha256_hexdigest : string → string.
Variable strip : string → string.
Variable lower : string → string.


Lemma do_register_cases (st : Store) (name_e email_e phone_e pw : string) :
  (strip name_e ≠ "" ∧ lower (strip email_e) ≠ "" ∧ (6 ≤ String.length pw)%nat ∧
   customer_by_email st (lower (strip email_e)) = None ∧
   do_register sha256_hexdigest strip lower st name_e email_e phone_e pw =
   (mkStore (st_db st) (rooms_seq st)
            (<[customers_seq st + 1 :=
                 mkCustomer (strip name_e) (lower (strip email_e)) (strip phone_e)
                            (hash_password sha256_hexdigest pw)]> (Customers st))
            (customers_seq st + 1) (Staff st) (staff_seq st),
    RegistrationSuccessful)) ∨
  ((strip name_e = "" ∨ lower (strip email_e) = "" ∨ (String.length pw < 6)%nat ∨
    is_Some (customer_by_email st (lower (strip email_e)))) ∧
   (do_register sha256_hexdigest strip lower st name_e email_e phone_e pw).1 = st ∧
   (do_register sha256_hexdigest strip lower st name_e email_e phone_e pw).2
   ≠ RegistrationSuccessful).
Proof.
  unfold do_register, truthy.
  destruct (decide (strip name_e = "")) as [Hn|Hn].
  { right. rewrite (bool_decide_eq_true_2 _ Hn). simpl. split_and!; [by left|done..]. }
  destruct (decide (lower (strip email_e) = "")) as [He|He].
  { right. rewrite (bool_decide_eq_true_2 _ He), andb_false_r. simpl.
    split_and!; [by right; left|done..]. }
  destruct (decide (pw = "")) as [Hp|Hp].
  { right. rewrite (bool_decide_eq_true_2 _ Hp), andb_false_r. simpl.
    split_and!; [|done..]. right; right; left. rewrite Hp. simpl. lia. }
  rewrite !bool_decide_eq_false_2 by done. simpl.
  case_bool_decide as Hlen.
  { right. split_and!; [|done..]. by right; right; left. }
  destruct (customer_by_email st (lower (strip email_e))) as [kc|] eqn:Hc.
  { right. split_and!; [|done..]. right; right; right. by eexists. }
  left. split_and!; [done|done|lia|done|done].
Qed.

(** X18: a customer who has just registered can log in: when [do_register]
    succeeds, [do_login] with the same email text and password, on the
    resulting store, logs in as the new customer. *)
Theorem register_then_login (st st' : Store) (name_e email_e phone_e pw : string) :
  do_register sha256_hexdigest strip lower st name_e email_e phone_e pw
  = (st', RegistrationSuccessful) →
  do_login sha256_hexdigest strip lower st' email_e pw =
  WelcomeBack (customers_seq st + 1)
              (mkCustomer (strip name_e) (lower (strip email_e)) (strip phone_e)
                          (hash_password sha256_hexdigest pw)).
Proof.
  intros Hreg.
  destruct (do_register_cases st name_e email_e phone_e pw)
    as [(Hn & He & Hlen & Hnone & Heq)|(_ & _ & Hne)];
    [|by rewrite Hreg in Hne].
  rewrite Heq in Hreg. injection Hreg as <-.
  unfold do_login, truthy.
  assert (pw ≠ "") as Hp by (intros ->; simpl in Hlen; lia).
  rewrite !bool_decide_eq_false_2 by done. simpl.
  unfold customer_by_email. simpl.
  rewrite (head_filter_unique _ _
             (customers_seq st + 1,
              mkCustomer (strip name_e) (lower (strip email_e)) (strip phone_e)
                         (hash_password sha256_hexdigest pw))).
  - unfold verify_password. simpl. by rewrite bool_decide_eq_true_2.
  - apply elem_of_map_to_list, lookup_insert_eq.
  - done.
  - intros [k c] Hin Hc. apply elem_of_map_to_list in Hin. simpl in Hc.
    apply lookup_insert_Some in Hin as [[-> ->]|[_ Hin]]; [done|].
    by destruct (proj1 (customer_by_email_None st _) Hnone k c Hin).
Qed.

(** X19: [do_register] succeeds exactly when the stripped name and the
    stripped, lower-cased email are not empty, the password has at least six
    characters and no customer has that email; when it does not succeed the
    store is unchanged. *)
Theorem do_register_outcome (st : Store) (name_e email_e phone_e pw : string) :
  ((do_register sha256_hexdigest strip lower st name_e email_e phone_e pw).2
   = RegistrationSuccessful ↔
   strip name_e ≠ "" ∧ lower (strip email_e) ≠ "" ∧ (6 ≤ String.length pw)%nat ∧
   ∀ k c, Customers st !! k = Some c → c_email c ≠ lower (strip email_e)) ∧
  ((do_register sha256_hexdigest strip lower st name_e email_e phone_e pw).2
   ≠ RegistrationSuccessful →
   (do_register sha256_hexdigest strip lower st name_e email_e phone_e pw).1 = st).
Proof.
  destruct (do_register_cases st name_e email_e phone_e pw)
    as [(Hn & He & Hlen & Hnone & Heq)|(Hwhy & Hst & Hne)].
  - rewrite Heq. simpl. split; [|done]. split; [|done]. intros _.
    split_and!; [done..|]. by apply customer_by_email_None.
  - split; [|done]. split; [done|]. intros (Hn & He & Hlen & Hnone).
    destruct Hwhy as [?|[?|[?|Hsome]]]; [done|done|lia|].
    apply customer_by_email_None in Hnone. rewrite Hnone in Hsome. by destruct Hsome.
Qed.

(** X20: [do_register] keeps the emails of the customers distinct. *)
Theorem do_register_unique_emails (st : Store) (name_e email_e phone_e pw : string) :
  unique_emails st →
  unique_emails (do_register sha256_hexdigest strip lower st name_e email_e phone_e pw).1.
Proof.
  intros Hu.
  destruct (do_register_cases st name_e email_e phone_e pw)
    as [(Hn & He & Hlen & Hnone & Heq)|(_ & Hst & _)]; [|by rewrite Hst].
  rewrite Heq. simpl. intros i j c1 c2 H1 H2 Hc. simpl in H1, H2.
  pose proof (proj1 (customer_by_email_None st _) Hnone) as Hfree.
  apply lookup_insert_Some in H1 as [[<- <-]|[Hi H1]];
    apply lookup_insert_Some in H2 as [[<- <-]|[Hj H2]]; simpl in *.
  - done.
  - by destruct (Hfree j c2 H2).
  - by destruct (Hfree i c1 H1).
  - by apply (Hu i j c1 c2).
Qed.

(** X21: [do_login] logs in only with the stored credentials, and, the emails
    being distinct, always with them: a success names a customer row with the
    typed email, normalised, and the hash of the typed password; and for a
    customer with that email and a non-empty password, the login succeeds as
    that customer when the hashes agree and ends in "Invalid email or
    password" when they differ. *)
Theorem do_login_sound_complete (st : Store) (email_e pw : string) (cid : Z)
    (row : Customer) :
  (do_login sha256_hexdigest strip lower st email_e pw = WelcomeBack cid row →
   Customers st !! cid = Some row ∧ c_email row = lower (strip email_e) ∧
   c_password_hash row = hash_password sha256_hexdigest pw) ∧
  (unique_emails st → Customers st !! cid = Some row →
   c_email row = lower (strip email_e) → lower (strip email_e) ≠ "" → pw ≠ "" →
   do_login sha256_hexdigest strip lower st email_e pw =
   if bool_decide (hash_password sha256_hexdigest pw = c_password_hash row)
   then WelcomeBack cid row else InvalidEmailOrPassword).
Proof.
  unfold do_login, truthy, verify_password. split.
  - destruct (negb _); [done|].
    destruct (customer_by_email st (lower (strip email_e))) as [[k c]|] eqn:Hc; [|done].
    case_bool_decide as Hh; [|done]. intros [= -> ->].
    apply customer_by_email_Some in Hc as [? ?]. done.
  - intros Hu Hrow He Hne Hp.
    rewrite !bool_decide_eq_false_2 by done. simpl.
    by rewrite <-He, (customer_by_email_unique st cid row Hu Hrow).
Qed.

Lemma staff_by_email_seeded (st : Store) :
  is_Some (staff_by_email (seed_data sha256_hexdigest st) "admin@hotel") ∧
  Rooms (st_db (seed_data sha256_hexdigest st)) ≠ ∅.
Proof.
  unfold seed_data.
  set (st1 := match staff_by_email st "admin@hotel" with Some _ => st | None => _ end).
  assert (is_Some (staff_by_email st1 "admin@hotel")) as Hadmin.
  { unfold st1. destruct (staff_by_email st "admin@hotel") eqn:E; [by rewrite E|].
    unfold staff_by_email at 1. simpl. rewrite (staff_by_email_inserted st _ _ _ E); done. }
  case_bool_decide as Hsize.
  - simpl. split; [done|]. apply insert_non_empty.
  - split; [done|]. by apply map_size_non_empty_iff.
Qed.

(** X22: [seed_data] is idempotent and leaves bookings, payments and customers
    alone: running it on a store it has already run on changes nothing. *)
Theorem seed_data_idempotent (st : Store) :
  seed_data sha256_hexdigest (seed_data sha256_hexdigest st)
  = seed_data sha256_hexdigest st ∧
  Bookings (st_db (seed_data sha256_hexdigest st)) = Bookings (st_db st) ∧
  Payments (st_db (seed_data sha256_hexdigest st)) = Payments (st_db st) ∧
  Customers (seed_data sha256_hexdigest st) = Customers st.
Proof.
  split.
  - destruct (staff_by_email_seeded st) as [[x Hx] Hrooms].
    unfold seed_data at 1. rewrite Hx.
    rewrite bool_decide_eq_false_2; [done|]. by apply map_size_non_empty_iff.
  - unfold seed_data.
    destruct (staff_by_email st "admin@hotel"); case_bool_decide; done.
Qed.

(** X23: on a store with no staff row for "admin@hotel", [seed_data] creates
    the administrator, who can then log in with the password "admin123"
    under any email text that normalises to "admin@hotel". *)
Theorem seeded_admin_can_login (st : Store) (email_e : string) :
  staff_by_email st "admin@hotel" = None →
  lower (strip email_e) = "admin@hotel" →
  admin_do_login sha256_hexdigest strip lower (seed_data sha256_hexdigest st)
                 email_e "admin123" =
  WelcomeStaff (staff_seq st + 1)
               (mkStaff "Admin" "Manager" "admin@hotel" "0000000000"
                        (hash_password sha256_hexdigest "admin123")).
Proof.
  intros Hnone He. unfold admin_do_login. rewrite He.
  assert (staff_by_email (seed_data sha256_hexdigest st) "admin@hotel" =
          Some (staff_seq st + 1,
                mkStaff "Admin" "Manager" "admin@hotel" "0000000000"
                        (hash_password sha256_hexdigest "admin123"))) as ->.
  { unfold seed_data. rewrite Hnone.
    case_bool_decide; unfold staff_by_email; simpl;
      by rewrite (staff_by_email_inserted st _ _ _ Hnone). }
  unfold verify_password. simpl. by rewrite bool_decide_eq_true_2.
Qed.

(** The store that the reservation engine starts from is the one that
    [seed_data] makes of the fresh file. *)
Example seed_data_fresh : st_db (seed_data sha256_hexdigest fresh) = seeded.
Proof. reflexivity. Qed.
End AccountProperties.

Lemma register_then_login_witness :
  do_login id id id
    (do_register id id id fresh "Asha" "asha@example.org" "12345" "secret1").1
    "asha@example.org" "secret1"
  = WelcomeBack 1 (mkCustomer "Asha" "asha@example.org" "12345" "secret1").
Proof.
  apply (register_then_login id id id fresh _ "Asha" "asha@example.org" "12345" "secret1").
  reflexivity.
Defined.

Lemma do_register_unique_emails_witness :
  unique_emails (do_register id id id fresh "Asha" "asha@example.org" "12345" "secret1").1.
Proof.
  apply do_register_unique_emails. intros i j c1 c2 H.
  unfold fresh in H. simpl in H. by rewrite lookup_empty in H.
Defined.

Lemma seeded_admin_can_login_witness :
  admin_do_login id id id (seed_data id fresh) "admin@hotel" "admin123" =
  WelcomeStaff 1 (mkStaff "Admin" "Manager" "admin@hotel" "0000000000" "admin123").
Proof.
  apply (seeded_admin_can_login id id id fresh "admin@hotel"); reflexivity.
Defined.
